(** * SQLite persistence of dashboard summaries: model and properties

    A shallow embedding of [operations_dashboard/storage/repository.py].

    The repository talks to SQLite through Python's [sqlite3] module.  The
    model has three layers, mirroring the code:

    - the engine: the two tables declared by [initialize], and the SQL
      statements the repository sends, as pure functions on a [database];
    - the connection: Python's [sqlite3.Connection] with its implicit
      transaction, the [with] block that commits or rolls back, and
      [executescript] / [executemany], as a state-and-exception monad;
    - the repository: [initialize], [save_summary],
      [fetch_recent_summaries], [fetch_by_start_date], [_fetch_products].

    INTEGER values are modelled by [Z] and REAL values by their numeric
    value in [Q]: the code stores, compares and returns them, and performs
    no arithmetic on them.  A Python [int] has no bound, an INTEGER of
    SQLite is a signed 64-bit one: binding an integer outside that range
    raises.  TEXT values are byte strings, compared as the BINARY
    collation does. *)

From Stdlib Require Import ZArith QArith Lia Ascii String.
From stdpp Require Import base tactics option list sorting strings.

Close Scope Q_scope.
Local Open Scope Z_scope.

(** ** Results of fallible calls *)

(** The exceptions the modelled calls can raise: those of [sqlite3], the
    [OverflowError] of binding an integer that SQLite cannot hold, and the
    [OSError] of [mkdir]. *)
Inductive error : Type :=
  | CannotOpenDatabase          (* OperationalError: unable to open database file *)
  | NoSuchTable (name : string) (* OperationalError: no such table *)
  | ForeignKeyFailed            (* IntegrityError: FOREIGN KEY constraint failed *)
  | UniqueFailed                (* IntegrityError: UNIQUE constraint failed *)
  | DatabaseFull                (* OperationalError: no rowid left to assign *)
  | Overflow                    (* OverflowError: Python int too large to convert to SQLite INTEGER *)
  | CannotCreateDirectory.      (* OSError: the parent directory cannot be created *)

Inductive result (A : Type) : Type :=
  | Ok (a : A)
  | Err (e : error).
Arguments Ok {A} a.
Arguments Err {A} e.

Definition is_ok {A} (r : result A) : bool :=
  match r with Ok _ => true | Err _ => false end.

(** ** Input records *)

(** Modelled from the spec: [datetime.date], whose definition is Python's;
    a calendar date and its ISO 8601 text, [YYYY-MM-DD]. *)
Record date : Type := Date { year : Z; month : Z; day : Z }.

Definition digit (n : Z) : ascii :=
  ascii_of_nat (48 + Z.to_nat (n mod 10)).

Definition pad2 (n : Z) : string :=
  String (digit (n / 10)) (String (digit n) "").

Definition pad4 (n : Z) : string :=
  String (digit (n / 1000)) (String (digit (n / 100)) (pad2 n)).

Definition isoformat (d : date) : string :=
  pad4 (year d) +:+ "-" +:+ pad2 (month d) +:+ "-" +:+ pad2 (day d).

(** Modelled from the spec: [ProductPerformance] of [metrics.calculations],
    which is not part of the persisted component; the eight attributes that
    [save_summary] reads from each entry. *)
Record ProductPerformance : Type := {
  asin : string;
  title : string;
  revenue : Q;
  units : Z;
  sessions : Z;
  conversion_rate : Q;
  refunds : Z;
  buy_box_percentage : option Q
}.

(** Modelled from the spec: the aggregate totals of a [DashboardSummary]. *)
Record Totals : Type := {
  total_revenue : Q;
  total_units : Z;
  total_sessions : Z;
  totals_conversion_rate : Q;
  refund_rate : Q
}.

(** Modelled from the spec: [DashboardSummary] of [metrics.calculations]. *)
Record DashboardSummary : Type := {
  start : date;
  end_ : date;
  source_name : string;
  totals : Totals;
  top_products : list ProductPerformance
}.

(** ** Output records *)

Record StoredProduct : Type := {
  sp_asin : string;
  sp_title : string;
  sp_revenue : Q;
  sp_units : Z;
  sp_sessions : Z;
  sp_conversion_rate : Q;
  sp_refunds : Z;
  sp_buy_box_percentage : option Q
}.

Record StoredSummary : Type := {
  ss_id : Z;
  ss_start : string;
  ss_end : string;
  ss_source : string;
  ss_total_revenue : Q;
  ss_total_units : Z;
  ss_total_sessions : Z;
  ss_conversion_rate : Q;
  ss_refund_rate : Q;
  ss_created_at : string;
  ss_products : list StoredProduct
}.

(** ** The engine: tables *)

(** A row of [summaries]: the rowid alias [id] and the nine declared
    columns. *)
Record summary_row : Type := {
  s_id : Z;
  s_start_date : string;
  s_end_date : string;
  s_source : string;
  s_total_revenue : Q;
  s_total_units : Z;
  s_total_sessions : Z;
  s_conversion_rate : Q;
  s_refund_rate : Q;
  s_created_at : string
}.

(** A row of [products]. *)
Record product_row : Type := {
  p_id : Z;
  p_summary_id : Z;
  p_asin : string;
  p_title : string;
  p_revenue : Q;
  p_units : Z;
  p_sessions : Z;
  p_conversion_rate : Q;
  p_refunds : Z;
  p_buy_box_percentage : option Q
}.

(** A table holds its rows in insertion order, and, being declared
    AUTOINCREMENT, its entry of [sqlite_sequence]: the largest rowid it ever
    held. *)
Record table (R : Type) : Type := Table {
  tbl_rows : list R;
  tbl_seq : Z
}.
Arguments Table {R} tbl_rows tbl_seq.
Arguments tbl_rows {R} t.
Arguments tbl_seq {R} t.

Definition empty_table {R} : table R := Table [] 0.

(** The database file: each of the two tables exists or not. *)
Record database : Type := Database {
  db_summaries : option (table summary_row);
  db_products : option (table product_row)
}.

Definition empty_database : database := Database None None.

(** The action the declaration of [products] attaches to the deletion of the
    referenced [summaries] row. *)
Inductive fk_action : Type := NoAction | Cascade.

Definition products_on_delete : fk_action := Cascade.

(** ** The engine: rowids *)

Definition max_rowid : Z := 2 ^ 63 - 1.

Definition largest_rowid {R} (rowid : R → Z) (rows : list R) : Z :=
  foldr (λ r m, Z.max (rowid r) m) 0 rows.

(** The rowid an AUTOINCREMENT table gives to a new row: one more than the
    largest it ever held; none is left after [max_rowid]. *)
Definition next_rowid {R} (rowid : R → Z) (t : table R) : result Z :=
  let m := Z.max (tbl_seq t) (largest_rowid rowid (tbl_rows t)) in
  if decide (max_rowid ≤ m) then Err DatabaseFull else Ok (m + 1).

(** ** The engine: data definition *)

(** [CREATE TABLE IF NOT EXISTS summaries (...)] *)
Definition create_summaries (d : database) : result database :=
  Ok (Database
        (match db_summaries d with
         | Some t => Some t
         | None => Some empty_table
         end)
        (db_products d)).

(** [CREATE TABLE IF NOT EXISTS products (...)] *)
Definition create_products (d : database) : result database :=
  Ok (Database
        (db_summaries d)
        (match db_products d with
         | Some t => Some t
         | None => Some empty_table
         end)).

(** ** The engine: data manipulation *)

(** [INSERT INTO summaries (start_date, ..., created_at) VALUES (?, ...)];
    the result is the rowid of the new row, [cursor.lastrowid]. *)
Definition insert_summary
    (start_date end_date source : string) (total_revenue : Q)
    (total_units total_sessions : Z) (conversion_rate refund_rate : Q)
    (created_at : string) (fk : bool) (d : database)
    : result (Z * database) :=
  match db_summaries d with
  | None => Err (NoSuchTable "summaries")
  | Some t =>
      match next_rowid s_id t with
      | Err e => Err e
      | Ok id =>
          let row :=
            {| s_id := id; s_start_date := start_date;
               s_end_date := end_date; s_source := source;
               s_total_revenue := total_revenue;
               s_total_units := total_units;
               s_total_sessions := total_sessions;
               s_conversion_rate := conversion_rate;
               s_refund_rate := refund_rate;
               s_created_at := created_at |} in
          Ok (id, Database (Some (Table (tbl_rows t ++ [row]) id))
                           (db_products d))
      end
  end.

(** The nine parameters of the statement that writes a line-item. *)
Record product_params : Type := {
  q_summary_id : Z;
  q_asin : string;
  q_title : string;
  q_revenue : Q;
  q_units : Z;
  q_sessions : Z;
  q_conversion_rate : Q;
  q_refunds : Z;
  q_buy_box_percentage : option Q
}.

Definition product_row_of (id : Z) (q : product_params) : product_row :=
  {| p_id := id; p_summary_id := q_summary_id q; p_asin := q_asin q;
     p_title := q_title q; p_revenue := q_revenue q; p_units := q_units q;
     p_sessions := q_sessions q;
     p_conversion_rate := q_conversion_rate q; p_refunds := q_refunds q;
     p_buy_box_percentage := q_buy_box_percentage q |}.

(** The columns of [UNIQUE(summary_id, asin)]. *)
Definition product_key (r : product_row) : Z * string :=
  (p_summary_id r, p_asin r).

(** How a statement resolves the violation of a uniqueness constraint. *)
Inductive conflict : Type := Abort | Replace.

(** [FOREIGN KEY(summary_id) REFERENCES summaries(id)], checked when the
    connection enforces foreign keys. *)
Definition check_parent (fk : bool) (d : database) (summary_id : Z)
    : result unit :=
  if fk then
    match db_summaries d with
    | None => Err (NoSuchTable "summaries")
    | Some t =>
        if decide (summary_id ∈ s_id <$> tbl_rows t) then Ok ()
        else Err ForeignKeyFailed
    end
  else Ok ().

(** [INSERT [OR REPLACE] INTO products (summary_id, ..., buy_box_percentage)
    VALUES (?, ...)].  With [Replace] the rows that hold the new row's
    (summary_id, asin) are deleted before the new row is written. *)
Definition insert_product (on_conflict : conflict) (q : product_params)
    (fk : bool) (d : database) : result (Z * database) :=
  match db_products d with
  | None => Err (NoSuchTable "products")
  | Some t =>
      match next_rowid p_id t with
      | Err e => Err e
      | Ok id =>
          let key := (q_summary_id q, q_asin q) in
          let others := filter (λ r, product_key r ≠ key) (tbl_rows t) in
          match on_conflict with
          | Abort =>
              if decide (key ∈ product_key <$> tbl_rows t)
              then Err UniqueFailed
              else
                match check_parent fk d (q_summary_id q) with
                | Err e => Err e
                | Ok _ =>
                    Ok (id, Database (db_summaries d)
                          (Some (Table (tbl_rows t ++ [product_row_of id q]) id)))
                end
          | Replace =>
              match check_parent fk d (q_summary_id q) with
              | Err e => Err e
              | Ok _ =>
                  Ok (id, Database (db_summaries d)
                        (Some (Table (others ++ [product_row_of id q]) id)))
              end
          end
      end
  end.

(** [DELETE FROM summaries WHERE ...].  When the connection enforces foreign
    keys, the action declared by [products] runs for each deleted row. *)
Definition delete_summaries (which : summary_row → bool) (fk : bool)
    (d : database) : result (unit * database) :=
  match db_summaries d with
  | None => Err (NoSuchTable "summaries")
  | Some t =>
      let deleted := filter (λ r, which r = true) (tbl_rows t) in
      let kept := filter (λ r, which r ≠ true) (tbl_rows t) in
      let summaries' := Some (Table kept (tbl_seq t)) in
      if fk then
        match db_products d with
        | None => Ok ((), Database summaries' None)
        | Some tp =>
            let owned (r : product_row) := p_summary_id r ∈ s_id <$> deleted in
            match products_on_delete with
            | Cascade =>
                Ok ((), Database summaries'
                      (Some (Table (filter (λ r, ¬ owned r) (tbl_rows tp))
                                   (tbl_seq tp))))
            | NoAction =>
                if decide (Exists owned (tbl_rows tp))
                then Err ForeignKeyFailed
                else Ok ((), Database summaries' (Some tp))
            end
        end
      else Ok ((), Database summaries' (db_products d))
  end.

(** ** The engine: queries *)

Definition Qle_desc (x y : Q) : Prop := Qle_bool y x = true.

(** [ORDER BY revenue DESC] *)
Definition by_revenue_desc (a b : product_row) : Prop :=
  Qle_desc (p_revenue a) (p_revenue b).

(** [ORDER BY start_date DESC, id DESC] *)
Definition by_start_date_desc_id_desc (a b : summary_row) : Prop :=
  strict String.le (s_start_date b) (s_start_date a)
  ∨ (s_start_date a = s_start_date b ∧ s_id b ≤ s_id a).

(** [ORDER BY id DESC] *)
Definition by_id_desc (a b : summary_row) : Prop := s_id b ≤ s_id a.

(** The order in which the rows of one summary are read: the query goes
    through the index of [UNIQUE(summary_id, asin)], by [asin], then
    rowid. *)
Definition by_index (a b : product_row) : Prop :=
  strict String.le (p_asin a) (p_asin b)
  ∨ (p_asin a = p_asin b ∧ p_id a ≤ p_id b).

(** [ORDER BY revenue DESC] as the engine returns it: rows of equal revenue
    stay in the order in which they were read. *)
Definition in_select_order (a b : product_row) : Prop :=
  by_revenue_desc a b ∧ (by_revenue_desc b a → by_index a b).

#[global] Instance by_revenue_desc_dec : RelDecision by_revenue_desc.
Proof. intros a b. unfold by_revenue_desc, Qle_desc. apply _. Defined.

#[global] Instance by_start_date_desc_id_desc_dec :
  RelDecision by_start_date_desc_id_desc.
Proof.
  intros a b. unfold by_start_date_desc_id_desc, strict. apply _.
Defined.

#[global] Instance by_id_desc_dec : RelDecision by_id_desc.
Proof. intros a b. unfold by_id_desc. apply _. Defined.

#[global] Instance in_select_order_dec : RelDecision in_select_order.
Proof.
  intros a b. unfold in_select_order, by_index, strict. apply _.
Defined.

(** [LIMIT n]: a negative [n] is no limit. *)
Definition sql_limit {A} (n : Z) (l : list A) : list A :=
  if decide (n < 0) then l else take (Z.to_nat n) l.

(** [SELECT * FROM summaries ORDER BY start_date DESC, id DESC LIMIT ?] *)
Definition select_recent (limit : Z) (d : database)
    : result (list summary_row) :=
  match db_summaries d with
  | None => Err (NoSuchTable "summaries")
  | Some t =>
      Ok (sql_limit limit
            (merge_sort by_start_date_desc_id_desc (tbl_rows t)))
  end.

(** [SELECT * FROM summaries WHERE start_date = ? ORDER BY id DESC LIMIT 1] *)
Definition select_by_start_date (start_date : string) (d : database)
    : result (list summary_row) :=
  match db_summaries d with
  | None => Err (NoSuchTable "summaries")
  | Some t =>
      Ok (sql_limit 1
            (merge_sort by_id_desc
               (filter (λ r, s_start_date r = start_date) (tbl_rows t))))
  end.

(** [SELECT asin, ..., buy_box_percentage FROM products
     WHERE summary_id = ? ORDER BY revenue DESC] *)
Definition select_products (summary_id : Z) (d : database)
    : result (list product_row) :=
  match db_products d with
  | None => Err (NoSuchTable "products")
  | Some t =>
      Ok (merge_sort in_select_order
            (filter (λ r, p_summary_id r = summary_id) (tbl_rows t)))
  end.

(** ** The connection *)

(** A [sqlite3.Connection]: what is committed to the file, what the
    connection sees (which includes its own uncommitted writes), whether it
    has a transaction open, and whether it enforces foreign keys. *)
Record connection : Type := Connection {
  committed : database;
  working : database;
  in_transaction : bool;
  foreign_keys : bool
}.

(** [sqlite3.connect]: foreign keys are not enforced until asked for. *)
Definition connect (d : database) : connection := Connection d d false false.

Definition commit (c : connection) : connection :=
  Connection (working c) (working c) false (foreign_keys c).

Definition rollback (c : connection) : connection :=
  Connection (committed c) (committed c) false (foreign_keys c).

(** A call on a connection changes the connection and returns or raises;
    what it wrote before raising stays written. *)
Definition M (A : Type) : Type := connection → result A * connection.

#[global] Instance M_ret : MRet M := λ A a c, (Ok a, c).

#[global] Instance M_bind : MBind M := λ A B f m c,
  match m c with
  | (Ok a, c') => f a c'
  | (Err e, c') => (Err e, c')
  end.

(** [conn.execute("PRAGMA foreign_keys = ON;")]: ignored inside a
    transaction. *)
Definition pragma_foreign_keys_on : M unit := λ c,
  (Ok (),
   if in_transaction c then c
   else Connection (committed c) (working c) false true).

(** [conn.execute] of an INSERT or DELETE: the module opens a transaction
    first if none is open; a statement that fails leaves no change of its
    own, and the transaction stays open. *)
Definition execute_dml {A} (stmt : bool → database → result (A * database))
    : M A := λ c,
  match stmt (foreign_keys c) (working c) with
  | Ok (a, d) => (Ok a, Connection (committed c) d true (foreign_keys c))
  | Err e =>
      (Err e, Connection (committed c) (working c) true (foreign_keys c))
  end.

(** [conn.execute] of a SELECT, its rows fetched. *)
Definition execute_query {A} (query : database → result A) : M A := λ c,
  (query (working c), c).

(** The integers SQLite's INTEGER holds: the signed 64-bit ones. *)
Definition fits_int64 (n : Z) : Prop := - 2 ^ 63 ≤ n ≤ 2 ^ 63 - 1.

#[global] Instance fits_int64_dec n : Decision (fits_int64 n).
Proof. unfold fits_int64. apply _. Defined.

(** Compiling a statement on [summaries]: the table must exist. *)
Definition prepare_summaries (fk : bool) (d : database) : result unit :=
  match db_summaries d with
  | None => Err (NoSuchTable "summaries")
  | Some _ => Ok ()
  end.

(** Compiling a statement that writes [products]: the table must exist,
    and so must the table its foreign key refers to when the connection
    enforces foreign keys. *)
Definition prepare_products (fk : bool) (d : database) : result unit :=
  match db_products d with
  | None => Err (NoSuchTable "products")
  | Some _ => if fk then prepare_summaries fk d else Ok ()
  end.

(** The first step of [conn.execute] and [conn.executemany]: the
    statement is compiled, before any parameter is looked at. *)
Definition compile (prepare : bool → database → result unit) : M unit :=
  λ c, (prepare (foreign_keys c) (working c), c).

(** Binding the parameters of a compiled statement before it runs: an
    integer that does not fit raises [OverflowError]. *)
Definition bind_then {A} (integers : list Z) (run : M A) : M A := λ c,
  if decide (Forall fits_int64 integers) then run c else (Err Overflow, c).

(** [conn.executemany]: the statement is compiled once, also for an empty
    list; then, for each parameter row in order, the row is bound and the
    statement runs; it stops at the first failure. *)
Fixpoint executemany_rows {P A} (integers : P → list Z)
    (stmt : P → bool → database → result (A * database)) (rows : list P)
    : M unit :=
  match rows with
  | [] => mret ()
  | p :: rows =>
      _ ← bind_then (integers p) (execute_dml (stmt p));
      executemany_rows integers stmt rows
  end.

Definition executemany {P A} (prepare : bool → database → result unit)
    (integers : P → list Z)
    (stmt : P → bool → database → result (A * database)) (rows : list P)
    : M unit :=
  _ ← compile prepare;
  executemany_rows integers stmt rows.

(** [conn.executescript]: commits what is pending, then runs the
    statements one by one, each committed as it completes. *)
Fixpoint run_script (script : list (database → result database))
    (c : connection) : result unit * connection :=
  match script with
  | [] => (Ok (), c)
  | stmt :: script =>
      match stmt (working c) with
      | Ok d => run_script script (Connection d d false (foreign_keys c))
      | Err e => (Err e, c)
      end
  end.

Definition executescript (script : list (database → result database))
    : M unit := λ c, run_script script (commit c).

(** What the repository's path points to: its parent directory is missing
    and can be created, or is missing and cannot be created (no permission,
    a file in the way), or the database file can be opened (a file that is
    not there yet is created empty by [sqlite3.connect]). *)
Inductive storage : Type :=
  | NoDirectory
  | File (d : database)
  | Unreachable.

(** [with sqlite3.connect(self._db_path) as conn: body]: on leaving the
    block the connection commits if the body returned and rolls back if it
    raised. *)
Definition with_connect {A} (body : M A) (st : storage)
    : result A * storage :=
  match st with
  | NoDirectory => (Err CannotOpenDatabase, NoDirectory)
  | File d =>
      let '(r, c) := body (connect d) in
      (r, File (committed (if is_ok r then commit c else rollback c)))
  | Unreachable => (Err CannotOpenDatabase, Unreachable)
  end.

(** ** The repository *)

(** [self._db_path.parent.mkdir(parents=True, exist_ok=True)], guarded by
    [if not self._db_path.parent.exists()]: it raises when the directory
    cannot be created. *)
Definition ensure_parent (st : storage) : result storage :=
  match st with
  | NoDirectory => Ok (File empty_database)
  | File d => Ok (File d)
  | Unreachable => Err CannotCreateDirectory
  end.

Definition initialize (st : storage) : result unit * storage :=
  match ensure_parent st with
  | Err e => (Err e, st)
  | Ok st' =>
      with_connect
        (_ ← pragma_foreign_keys_on;
         executescript [create_summaries; create_products])
        st'
  end.

(** The tuple built for each entry of [summary.top_products]. *)
Definition product_tuple (summary_id : Z) (product : ProductPerformance)
    : product_params :=
  {| q_summary_id := summary_id;
     q_asin := asin product;
     q_title := title product;
     q_revenue := revenue product;
     q_units := units product;
     q_sessions := sessions product;
     q_conversion_rate := conversion_rate product;
     q_refunds := refunds product;
     q_buy_box_percentage := buy_box_percentage product |}.

(** The integers among the parameters of the line-item statement. *)
Definition product_integers (q : product_params) : list Z :=
  [q_summary_id q; q_units q; q_sessions q; q_refunds q].

(** The block under [with sqlite3.connect(...) as conn:] in
    [save_summary]. *)
Definition save_summary_block (created_at : string)
    (summary : DashboardSummary) : M Z :=
  _ ← pragma_foreign_keys_on;
  summary_id ←
    (_ ← compile prepare_summaries;
     bind_then
       [total_units (totals summary); total_sessions (totals summary)]
       (execute_dml
          (insert_summary
             (isoformat (start summary))
             (isoformat (end_ summary))
             (source_name summary)
             (total_revenue (totals summary))
             (total_units (totals summary))
             (total_sessions (totals summary))
             (totals_conversion_rate (totals summary))
             (refund_rate (totals summary))
             created_at)));
  let product_rows := product_tuple summary_id <$> top_products summary in
  _ ← executemany prepare_products product_integers
        (insert_product Replace) product_rows;
  mret summary_id.

(** [created_at] is the reading of the clock,
    [datetime.utcnow().isoformat(timespec="seconds")]. *)
Definition save_summary (created_at : string) (summary : DashboardSummary)
    : storage → result Z * storage :=
  with_connect (save_summary_block created_at summary).

(** [StoredProduct] built from a row of the eight selected columns, in the
    order the dataclass declares its fields. *)
Definition stored_product (row : product_row) : StoredProduct :=
  {| sp_asin := p_asin row;
     sp_title := p_title row;
     sp_revenue := p_revenue row;
     sp_units := p_units row;
     sp_sessions := p_sessions row;
     sp_conversion_rate := p_conversion_rate row;
     sp_refunds := p_refunds row;
     sp_buy_box_percentage := p_buy_box_percentage row |}.

Definition _fetch_products (summary_id : Z) : M (list StoredProduct) :=
  product_rows ← execute_query (select_products summary_id);
  mret (stored_product <$> product_rows).

Definition stored_summary (row : summary_row) (products : list StoredProduct)
    : StoredSummary :=
  {| ss_id := s_id row;
     ss_start := s_start_date row;
     ss_end := s_end_date row;
     ss_source := s_source row;
     ss_total_revenue := s_total_revenue row;
     ss_total_units := s_total_units row;
     ss_total_sessions := s_total_sessions row;
     ss_conversion_rate := s_conversion_rate row;
     ss_refund_rate := s_refund_rate row;
     ss_created_at := s_created_at row;
     ss_products := products |}.

(** The loop [for row in rows: ... summaries.append(...)]. *)
Fixpoint load_summaries (rows : list summary_row) : M (list StoredSummary) :=
  match rows with
  | [] => mret []
  | row :: rows =>
      products ← _fetch_products (s_id row);
      summaries ← load_summaries rows;
      mret (stored_summary row products :: summaries)
  end.

Definition fetch_recent_summaries (limit : Z)
    : storage → result (list StoredSummary) * storage :=
  with_connect
    (rows ←
       (_ ← compile prepare_summaries;
        bind_then [limit] (execute_query (select_recent limit)));
     load_summaries rows).

Definition fetch_by_start_date (start_date : string)
    : storage → result (option StoredSummary) * storage :=
  with_connect
    (rows ← execute_query (select_by_start_date start_date);
     match rows with
     | [] => mret None
     | row :: _ =>
         products ← _fetch_products (s_id row);
         mret (Some (stored_summary row products))
     end).

(** ** Vocabulary of the properties *)

Definition summary_rows (d : database) : list summary_row :=
  match db_summaries d with Some t => tbl_rows t | None => [] end.

Definition product_rows (d : database) : list product_row :=
  match db_products d with Some t => tbl_rows t | None => [] end.

(** Both tables exist, as after [initialize]. *)
Definition initialized (d : database) : Prop :=
  is_Some (db_summaries d) ∧ is_Some (db_products d).

(** Every line-item belongs to a stored summary. *)
Definition referential_integrity (d : database) : Prop :=
  ∀ p, p ∈ product_rows d → p_summary_id p ∈ s_id <$> summary_rows d.

(** The parameters a line-item row was written with. *)
Definition product_params_of (r : product_row) : product_params :=
  {| q_summary_id := p_summary_id r; q_asin := p_asin r;
     q_title := p_title r; q_revenue := p_revenue r; q_units := p_units r;
     q_sessions := p_sessions r;
     q_conversion_rate := p_conversion_rate r; q_refunds := p_refunds r;
     q_buy_box_percentage := p_buy_box_percentage r |}.

Definition params_key (q : product_params) : Z * string :=
  (q_summary_id q, q_asin q).

(** The entries of a list that no later entry with the same key follows. *)
Fixpoint last_per_key {A K} `{EqDecision K} (key : A → K) (l : list A)
    : list A :=
  match l with
  | [] => []
  | x :: l =>
      if decide (key x ∈ key <$> l) then last_per_key key l
      else x :: last_per_key key l
  end.

(** The record a product entry is read back as. *)
Definition stored_of_performance (p : ProductPerformance) : StoredProduct :=
  {| sp_asin := asin p; sp_title := title p; sp_revenue := revenue p;
     sp_units := units p; sp_sessions := sessions p;
     sp_conversion_rate := conversion_rate p; sp_refunds := refunds p;
     sp_buy_box_percentage := buy_box_percentage p |}.

(** [ORDER BY revenue DESC] on the records read back. *)
Definition revenue_desc (a b : StoredProduct) : Prop :=
  Qle_desc (sp_revenue a) (sp_revenue b).

(** The line-items of summary [id] in [d] as records, highest revenue
    first. *)
Definition line_items_of (d : database) (id : Z)
    (products : list StoredProduct) : Prop :=
  products ≡ₚ
    stored_product <$> filter (λ r, p_summary_id r = id) (product_rows d)
  ∧ StronglySorted revenue_desc products.

(** The record [s] carries the columns of the header row [row]. *)
Definition header_of (row : summary_row) (s : StoredSummary) : Prop :=
  ss_id s = s_id row
  ∧ ss_start s = s_start_date row
  ∧ ss_end s = s_end_date row
  ∧ ss_source s = s_source row
  ∧ ss_total_revenue s = s_total_revenue row
  ∧ ss_total_units s = s_total_units row
  ∧ ss_total_sessions s = s_total_sessions row
  ∧ ss_conversion_rate s = s_conversion_rate row
  ∧ ss_refund_rate s = s_refund_rate row
  ∧ ss_created_at s = s_created_at row.

(** The record [p] carries the eight selected columns of the line-item
    row [r]. *)
Definition line_item_of (r : product_row) (p : StoredProduct) : Prop :=
  sp_asin p = p_asin r
  ∧ sp_title p = p_title r
  ∧ sp_revenue p = p_revenue r
  ∧ sp_units p = p_units r
  ∧ sp_sessions p = p_sessions r
  ∧ sp_conversion_rate p = p_conversion_rate r
  ∧ sp_refunds p = p_refunds r
  ∧ sp_buy_box_percentage p = p_buy_box_percentage r.

(** [products] are the line-items of summary [id] in [d]: one record for
    each row stored under that key, with the columns of the row, highest
    revenue first. *)
Definition line_items (d : database) (id : Z)
    (products : list StoredProduct) : Prop :=
  ∃ rows,
    rows ≡ₚ filter (λ r, p_summary_id r = id) (product_rows d)
    ∧ StronglySorted by_revenue_desc rows
    ∧ Forall2 line_item_of rows products.

(** The integers [save_summary] binds all fit SQLite's INTEGER. *)
Definition bindable (summary : DashboardSummary) : Prop :=
  fits_int64 (total_units (totals summary))
  ∧ fits_int64 (total_sessions (totals summary))
  ∧ Forall (λ p, fits_int64 (units p) ∧ fits_int64 (sessions p)
                 ∧ fits_int64 (refunds p))
           (top_products summary).

(** The dates [datetime.date] can hold, up to the length of the months. *)
Definition valid_date (d : date) : Prop :=
  1 ≤ year d ≤ 9999 ∧ 1 ≤ month d ≤ 12 ∧ 1 ≤ day d ≤ 31.

(** The order of the calendar. *)
Definition date_compare (a b : date) : comparison :=
  match year a ?= year b with
  | Eq => match month a ?= month b with
          | Eq => day a ?= day b
          | c => c
          end
  | c => c
  end.

(** A comparison, refined by a second one when it finds no difference. *)
Definition then_compare (c rest : comparison) : comparison :=
  match c with Eq => rest | _ => c end.

(** The largest rowid a table holds or ever held. *)
Definition high_water {R} (rowid : R → Z) (t : table R) : Z :=
  Z.max (tbl_seq t) (largest_rowid rowid (tbl_rows t)).

(** The keys the schema declares: [id] of [summaries] and
    [UNIQUE(summary_id, asin)] of [products] name at most one row each. *)
Definition unique_keys (d : database) : Prop :=
  NoDup (s_id <$> summary_rows d) ∧ NoDup (product_key <$> product_rows d).

(** The record the read operations build for a header row: its columns and
    the line-items of its key as [_fetch_products] returns them. *)
Definition summary_record (tp : table product_row) (row : summary_row)
    : StoredSummary :=
  stored_summary row
    (stored_product
       <$> merge_sort in_select_order
             (filter (λ r, p_summary_id r = s_id row) (tbl_rows tp))).

(** The header row [save_summary] writes for [summary] under key [id]. *)
Definition header_row (id : Z) (created_at : string)
    (summary : DashboardSummary) : summary_row :=
  {| s_id := id;
     s_start_date := isoformat (start summary);
     s_end_date := isoformat (end_ summary);
     s_source := source_name summary;
     s_total_revenue := total_revenue (totals summary);
     s_total_units := total_units (totals summary);
     s_total_sessions := total_sessions (totals summary);
     s_conversion_rate := totals_conversion_rate (totals summary);
     s_refund_rate := refund_rate (totals summary);
     s_created_at := created_at |}.

(** A caller with delete capability, which the repository itself has not:
    [DELETE FROM summaries WHERE ...] in a [with] block on a connection of
    its own; [enforce] tells whether it first sends the [PRAGMA] that the
    repository sends on its connections. *)
Definition delete_headers (enforce : bool) (which : summary_row → bool)
    : storage → result unit * storage :=
  with_connect
    (_ ← (if enforce then pragma_foreign_keys_on else mret ());
     execute_dml (delete_summaries which)).

(** The storages the repository produces: [initialize] where there is no
    database yet, then any calls of the repository, and deletions by
    callers that enforce foreign keys. *)
Inductive produced : storage → Prop :=
  | produced_new :
      produced (initialize NoDirectory).2
  | produced_new_file :
      produced (initialize (File empty_database)).2
  | produced_initialize st :
      produced st → produced (initialize st).2
  | produced_save st created_at summary :
      produced st → produced (save_summary created_at summary st).2
  | produced_fetch_recent st limit :
      produced st → produced (fetch_recent_summaries limit st).2
  | produced_fetch_by_start_date st start_date :
      produced st → produced (fetch_by_start_date start_date st).2
  | produced_delete st which :
      produced st → produced (delete_headers true which st).2.

#[global] Instance referential_integrity_dec d :
  Decision (referential_integrity d).
Proof.
  refine (cast_if
            (decide (Forall (λ p, p_summary_id p ∈ s_id <$> summary_rows d)
                            (product_rows d))));
    unfold referential_integrity; by rewrite Forall_forall in *.
Defined.

(** ** Sample data *)

(** The summary of the round trip of the specification: the window
    2024-01-01 to 2024-01-07 of "reportA", with two products. *)
Definition product_P1 : ProductPerformance :=
  {| asin := "P1"; title := "Widget"; revenue := 600%Q; units := 30;
     sessions := 300; conversion_rate := 0.1%Q; refunds := 1;
     buy_box_percentage := Some 0.95%Q |}.

Definition product_P2 : ProductPerformance :=
  {| asin := "P2"; title := "Gadget"; revenue := 400%Q; units := 20;
     sessions := 200; conversion_rate := 0.1%Q; refunds := 0;
     buy_box_percentage := None |}.

Definition totals_A : Totals :=
  {| total_revenue := 1000%Q; total_units := 50; total_sessions := 500;
     totals_conversion_rate := 0.1%Q; refund_rate := 0.02%Q |}.

Definition report_A : DashboardSummary :=
  {| start := Date 2024 1 1; end_ := Date 2024 1 7;
     source_name := "reportA"; totals := totals_A;
     top_products := [product_P2; product_P1] |}.

(** The following week. *)
Definition report_B : DashboardSummary :=
  {| start := Date 2024 1 8; end_ := Date 2024 1 14;
     source_name := "reportB"; totals := totals_A;
     top_products := [product_P1] |}.

(** A summary that lists the product "P1" twice. *)
Definition product_P1_again : ProductPerformance :=
  {| asin := "P1"; title := "Widget"; revenue := 400%Q; units := 20;
     sessions := 200; conversion_rate := 0.1%Q; refunds := 0;
     buy_box_percentage := None |}.

Definition report_twice : DashboardSummary :=
  {| start := Date 2024 1 1; end_ := Date 2024 1 7;
     source_name := "reportA"; totals := totals_A;
     top_products := [product_P1; product_P1_again] |}.

Definition database_of (st : storage) : database :=
  match st with File d => d | _ => empty_database end.

(** The database right after [initialize]. *)
Definition database_new : database :=
  Eval vm_compute in database_of (initialize NoDirectory).2.

(** [report_A] saved. *)
Definition database_A : database :=
  Eval vm_compute in
    database_of (save_summary "2024-01-08T09:00:00" report_A
                   (File database_new)).2.

(** [report_A], then [report_B]. *)
Definition database_AB : database :=
  Eval vm_compute in
    database_of (save_summary "2024-01-15T09:00:00" report_B
                   (File database_A)).2.

(** [report_A] saved twice. *)
Definition database_AA : database :=
  Eval vm_compute in
    database_of (save_summary "2024-01-09T09:00:00" report_A
                   (File database_A)).2.

(** [report_twice] saved. *)
Definition database_twice : database :=
  Eval vm_compute in
    database_of (save_summary "2024-01-08T09:00:00" report_twice
                   (File database_new)).2.

(** A summary of a later week that lists no product. *)
Definition report_C : DashboardSummary :=
  {| start := Date 2024 1 15; end_ := Date 2024 1 21;
     source_name := "reportC"; totals := totals_A;
     top_products := [] |}.

(** [report_A], then [report_C]. *)
Definition database_AC : database :=
  Eval vm_compute in
    database_of (save_summary "2024-01-22T09:00:00" report_C
                   (File database_A)).2.

(** A database whose [products] table has one rowid left. *)
Definition database_nearly_full : database :=
  Database (Some empty_table) (Some (Table [] (max_rowid - 1))).

(** A summary whose total of units is one more than SQLite's largest
    INTEGER. *)
Definition report_too_large : DashboardSummary :=
  {| start := Date 2024 1 15; end_ := Date 2024 1 21;
     source_name := "reportC";
     totals :=
       {| total_revenue := 1000%Q; total_units := 2 ^ 63;
          total_sessions := 500; totals_conversion_rate := 0.1%Q;
          refund_rate := 0.02%Q |};
     top_products := [] |}.

(** A database with the [summaries] table alone. *)
Definition database_without_products : database :=
  Database (Some empty_table) None.

(** * Properties *)

(** ** The orders of the queries *)

Section orders.

#[global] Instance by_revenue_desc_total : Total by_revenue_desc.
Proof.
  intros a b. unfold by_revenue_desc, Qle_desc. rewrite !Qle_bool_iff.
  destruct (Qlt_le_dec (p_revenue a) (p_revenue b)) as [H|H];
    [right; by apply Qlt_le_weak | by left].
Qed.

#[global] Instance by_revenue_desc_trans : Transitive by_revenue_desc.
Proof.
  intros a b c. unfold by_revenue_desc, Qle_desc.
  rewrite !Qle_bool_iff. intros H1 H2. by eapply Qle_trans.
Qed.

#[global] Instance by_id_desc_total : Total by_id_desc.
Proof. intros a b. unfold by_id_desc. lia. Qed.

#[global] Instance by_id_desc_trans : Transitive by_id_desc.
Proof. intros a b c. unfold by_id_desc. lia. Qed.

#[global] Instance by_start_date_desc_id_desc_total :
  Total by_start_date_desc_id_desc.
Proof.
  intros a b. unfold by_start_date_desc_id_desc.
  destruct (decide (s_start_date a = s_start_date b)) as [Heq|Hne].
  - destruct (Z.le_ge_cases (s_id a) (s_id b)); [right|left]; right; auto.
  - destruct (total String.le (s_start_date a) (s_start_date b)) as [H|H];
      [right|left]; left; (split; [done|]); intros H'; apply Hne;
      by apply (anti_symm String.le).
Qed.

#[global] Instance by_start_date_desc_id_desc_trans :
  Transitive by_start_date_desc_id_desc.
Proof.
  intros a b c. unfold by_start_date_desc_id_desc.
  intros [H1|[E1 H1]] [H2|[E2 H2]].
  - left. by trans (s_start_date b).
  - left. by rewrite <- E2.
  - left. by rewrite E1.
  - right. split; [congruence | lia].
Qed.

(** Sorting rows by revenue sorts the records built from them. *)
Lemma stored_product_sorted rows :
  StronglySorted by_revenue_desc rows →
  StronglySorted revenue_desc (stored_product <$> rows).
Proof.
  induction 1 as [|r rows Hs IH Hall]; simpl; constructor; [done|].
  apply Forall_fmap. eapply Forall_impl; [exact Hall|]. by intros x Hx.
Qed.

Lemma by_index_total a b : by_index a b ∨ by_index b a.
Proof.
  unfold by_index.
  destruct (decide (p_asin a = p_asin b)) as [Heq|Hne].
  - destruct (Z.le_ge_cases (p_id a) (p_id b)); [left|right]; right; auto.
  - destruct (total String.le (p_asin a) (p_asin b)) as [H|H];
      [left|right]; left; (split; [done|]); intros H'; apply Hne;
      by apply (anti_symm String.le).
Qed.

Lemma by_index_trans a b c : by_index a b → by_index b c → by_index a c.
Proof.
  unfold by_index. intros [H1|[E1 H1]] [H2|[E2 H2]].
  - left. by trans (p_asin b).
  - left. by rewrite <- E2.
  - left. by rewrite E1.
  - right. split; [congruence | lia].
Qed.

#[global] Instance in_select_order_total : Total in_select_order.
Proof.
  intros a b. unfold in_select_order.
  destruct (decide (by_revenue_desc a b)) as [Hab|Hab],
    (decide (by_revenue_desc b a)) as [Hba|Hba].
  - destruct (by_index_total a b); [left|right]; by split.
  - left. by split.
  - right. by split.
  - by destruct (total by_revenue_desc a b).
Qed.

#[global] Instance in_select_order_trans : Transitive in_select_order.
Proof.
  intros a b c [Hab Hab'] [Hbc Hbc']. split; [by trans b|].
  intros Hca. eapply by_index_trans.
  - apply Hab'. by trans c.
  - apply Hbc'. by trans a.
Qed.

(** The rows the line-item query returns are by revenue descending. *)
Lemma in_select_order_sorted rows :
  StronglySorted in_select_order rows →
  StronglySorted by_revenue_desc rows.
Proof.
  induction 1 as [|r rows Hs IH Hall]; constructor; [done|].
  eapply Forall_impl; [exact Hall|]. by intros x [Hx _].
Qed.

(** Each record built from a row carries the columns of the row. *)
Lemma stored_product_columns rows :
  Forall2 line_item_of rows (stored_product <$> rows).
Proof.
  induction rows as [|r rows IH]; [constructor|].
  rewrite fmap_cons. constructor; [|done]. by repeat split.
Qed.

Lemma stored_summary_columns row products :
  header_of row (stored_summary row products)
  ∧ ss_products (stored_summary row products) = products.
Proof. by repeat split. Qed.

End orders.

(** ** Dates and their text *)

Section dates.

Lemma digit_compare a b :
  0 ≤ a < 10 → 0 ≤ b < 10 →
  Ascii.compare (digit a) (digit b) = (a ?= b).
Proof.
  intros Ha Hb.
  assert (a = 0 ∨ a = 1 ∨ a = 2 ∨ a = 3 ∨ a = 4 ∨ a = 5 ∨ a = 6 ∨ a = 7
          ∨ a = 8 ∨ a = 9) as Ha' by lia.
  assert (b = 0 ∨ b = 1 ∨ b = 2 ∨ b = 3 ∨ b = 4 ∨ b = 5 ∨ b = 6 ∨ b = 7
          ∨ b = 8 ∨ b = 9) as Hb' by lia.
  destruct_or!; subst; reflexivity.
Qed.

Lemma digit_mod n : digit (n mod 10) = digit n.
Proof. unfold digit. by rewrite Z.mod_mod. Qed.

Lemma digit_not_hyphen n : Ascii.compare (digit n) "-" = Gt.
Proof.
  rewrite <- digit_mod.
  pose proof (Z.mod_pos_bound n 10 ltac:(lia)) as Hn.
  assert (n mod 10 = 0 ∨ n mod 10 = 1 ∨ n mod 10 = 2 ∨ n mod 10 = 3
          ∨ n mod 10 = 4 ∨ n mod 10 = 5 ∨ n mod 10 = 6 ∨ n mod 10 = 7
          ∨ n mod 10 = 8 ∨ n mod 10 = 9) as Hn' by lia.
  destruct_or!; rewrite Hn'; reflexivity.
Qed.

Lemma compare_two_digits a b rest :
  0 ≤ a < 100 → 0 ≤ b < 100 →
  then_compare (a / 10 ?= b / 10) (then_compare (a mod 10 ?= b mod 10) rest)
  = then_compare (a ?= b) rest.
Proof.
  intros Ha Hb. unfold then_compare.
  destruct (Z.compare_spec (a / 10) (b / 10)),
    (Z.compare_spec (a mod 10) (b mod 10)), (Z.compare_spec a b);
    try done; exfalso; Z.div_mod_to_equations; lia.
Qed.

Lemma compare_cons c c' s t :
  String.compare (String c s) (String c' t)
  = then_compare (Ascii.compare c c') (String.compare s t).
Proof.
  unfold then_compare. cbn [String.compare].
  by destruct (Ascii.compare c c').
Qed.

Lemma pad2_app n s :
  pad2 n +:+ s = String (digit (n / 10)) (String (digit n) s).
Proof. reflexivity. Qed.

Lemma pad2_compare a b s t :
  0 ≤ a < 100 → 0 ≤ b < 100 →
  String.compare (pad2 a +:+ s) (pad2 b +:+ t)
  = then_compare (a ?= b) (String.compare s t).
Proof.
  intros Ha Hb. rewrite <- compare_two_digits by done.
  rewrite !pad2_app, !compare_cons.
  rewrite <- (digit_mod a), <- (digit_mod b).
  by rewrite !digit_compare by (Z.div_mod_to_equations; lia).
Qed.

Lemma digit_ext m n : m mod 10 = n mod 10 → digit m = digit n.
Proof. intros Heq. by rewrite <- (digit_mod m), Heq, digit_mod. Qed.

Lemma pad4_split n :
  pad4 n = pad2 (n / 100) +:+ pad2 (n mod 100).
Proof.
  rewrite pad2_app. unfold pad4, pad2.
  assert (digit (n / 1000) = digit (n / 100 / 10)) as ->
    by (apply digit_ext; Z.div_mod_to_equations; lia).
  assert (digit (n mod 100 / 10) = digit (n / 10)) as ->
    by (apply digit_ext; Z.div_mod_to_equations; lia).
  assert (digit (n mod 100) = digit n) as ->
    by (apply digit_ext; Z.div_mod_to_equations; lia).
  reflexivity.
Qed.

Lemma pad4_compare a b s t :
  0 ≤ a < 10000 → 0 ≤ b < 10000 →
  String.compare (pad4 a +:+ s) (pad4 b +:+ t)
  = then_compare (a ?= b) (String.compare s t).
Proof.
  intros Ha Hb. rewrite !pad4_split.
  change ((pad2 (a / 100) +:+ pad2 (a mod 100)) +:+ s)
    with (pad2 (a / 100) +:+ (pad2 (a mod 100) +:+ s)).
  change ((pad2 (b / 100) +:+ pad2 (b mod 100)) +:+ t)
    with (pad2 (b / 100) +:+ (pad2 (b mod 100) +:+ t)).
  rewrite !pad2_compare by (Z.div_mod_to_equations; lia).
  unfold then_compare.
  destruct (Z.compare_spec (a / 100) (b / 100)),
    (Z.compare_spec (a mod 100) (b mod 100)), (Z.compare_spec a b);
    try done; exfalso; Z.div_mod_to_equations; lia.
Qed.

Lemma hyphen_compare s t :
  String.compare ("-" +:+ s) ("-" +:+ t) = String.compare s t.
Proof. done. Qed.

(** The texts of two dates compare as the dates do. *)
Lemma isoformat_compare a b :
  valid_date a → valid_date b →
  String.compare (isoformat a) (isoformat b) = date_compare a b.
Proof.
  intros (Hy & Hm & Hd) (Hy' & Hm' & Hd').
  unfold isoformat, date_compare.
  rewrite pad4_compare, hyphen_compare, pad2_compare, hyphen_compare by lia.
  change (pad2 (day a)) with (pad2 (day a) +:+ "").
  change (pad2 (day b)) with (pad2 (day b) +:+ "").
  rewrite pad2_compare by lia. unfold then_compare. simpl.
  by destruct (year a ?= year b), (month a ?= month b), (day a ?= day b).
Qed.

(** Hence [ORDER BY start_date] on the texts written by [save_summary]
    is the order of the window start dates, and equal texts are equal
    dates. *)
Lemma isoformat_le a b :
  valid_date a → valid_date b →
  String.le (isoformat a) (isoformat b) ↔ date_compare a b ≠ Gt.
Proof.
  intros Ha Hb. unfold String.le, String.leb.
  rewrite isoformat_compare by done.
  by destruct (date_compare a b).
Qed.

Lemma isoformat_inj a b :
  valid_date a → valid_date b → isoformat a = isoformat b → a = b.
Proof.
  intros Ha Hb Heq.
  assert (String.compare (isoformat a) (isoformat b) = Eq) as Hcmp.
  { rewrite Heq. pose proof (String.compare_antisym (isoformat b)
                               (isoformat b)) as Hrefl.
    by destruct (String.compare (isoformat b) (isoformat b)). }
  clear Heq. rename Hcmp into Heq.
  rewrite isoformat_compare in Heq by done. unfold date_compare in Heq.
  destruct a as [y m d], b as [y' m' d']. simpl in *.
  destruct (Z.compare_spec y y'), (Z.compare_spec m m'),
    (Z.compare_spec d d'); try done. by subst.
Qed.

End dates.

(** ** Reading through a connection *)

Section reads.

Lemma fetch_products_run id c :
  _fetch_products id c =
    (match select_products id (working c) with
     | Ok rows => Ok (stored_product <$> rows)
     | Err e => Err e
     end, c).
Proof.
  unfold _fetch_products, mbind, M_bind, execute_query, mret, M_ret.
  by destruct (select_products id (working c)).
Qed.

Lemma load_summaries_connection rows c : (load_summaries rows c).2 = c.
Proof.
  induction rows as [|row rows IH]; simpl; [done|].
  unfold mbind, M_bind. rewrite fetch_products_run.
  destruct (select_products (s_id row) (working c)); [|done].
  destruct (load_summaries rows c) as [[l|e] c'] eqn:E; simpl in *;
    by subst.
Qed.

(** The line-items [_fetch_products] returns when [products] exists. *)
Lemma fetch_products_line_items id c tp :
  db_products (working c) = Some tp →
  ∃ products,
    _fetch_products id c = (Ok products, c)
    ∧ line_items_of (working c) id products
    ∧ line_items (working c) id products.
Proof.
  intros Htp. rewrite fetch_products_run. unfold select_products.
  rewrite Htp. eexists. split; [done|].
  set (rows := merge_sort in_select_order _).
  assert (rows ≡ₚ filter (λ r, p_summary_id r = id)
                    (product_rows (working c))) as Hperm.
  { unfold product_rows. rewrite Htp. apply merge_sort_Permutation. }
  assert (StronglySorted by_revenue_desc rows) as Hsorted.
  { apply in_select_order_sorted, StronglySorted_merge_sort; apply _. }
  split; [split|].
  - by apply fmap_Permutation.
  - by apply stored_product_sorted.
  - exists rows. split; [done|]. split; [done|].
    apply stored_product_columns.
Qed.

Lemma load_summaries_line_items rows c tp :
  db_products (working c) = Some tp →
  ∃ summaries,
    load_summaries rows c = (Ok summaries, c)
    ∧ Forall2
        (λ row s,
           header_of row s ∧ line_items (working c) (s_id row) (ss_products s))
        rows summaries.
Proof.
  intros Htp. induction rows as [|row rows (summaries & Hrun & Hall)].
  { exists []. by split; [|constructor]. }
  destruct (fetch_products_line_items (s_id row) c tp Htp)
    as (products & Hp & _ & Hitems).
  exists (stored_summary row products :: summaries). split.
  - simpl. unfold mbind, M_bind. by rewrite Hp, Hrun.
  - constructor; [|done]. split; [|done]. apply stored_summary_columns.
Qed.

Lemma with_connect_read {A} (body : M A) d :
  (∀ c, (body c).2 = c) →
  with_connect body (File d) = ((body (connect d)).1, File d).
Proof.
  intros Hbody. unfold with_connect. specialize (Hbody (connect d)).
  destruct (body (connect d)) as [r c]. simpl in *. subst c.
  by destruct r.
Qed.

(** The rows the query of [fetch_recent_summaries] yields: the statement
    is compiled, then the limit is bound, then the rows are read. *)
Lemma recent_rows_run limit c :
  (_ ← compile prepare_summaries;
   bind_then [limit] (execute_query (select_recent limit))) c
  = (match db_summaries (working c) with
     | None => Err (NoSuchTable "summaries")
     | Some t =>
         if decide (fits_int64 limit)
         then Ok (sql_limit limit
                    (merge_sort by_start_date_desc_id_desc (tbl_rows t)))
         else Err Overflow
     end, c).
Proof.
  unfold mbind, M_bind, compile, prepare_summaries, bind_then,
    execute_query, select_recent.
  destruct (db_summaries (working c)) as [t|]; [|done].
  destruct (decide (fits_int64 limit)) as [Hfits|Hfits].
  - by rewrite decide_True by (by apply Forall_singleton).
  - by rewrite decide_False by (by rewrite Forall_singleton).
Qed.

End reads.

Section read_path.

Lemma fetch_recent_body_connection limit c :
  ((rows ←
      (_ ← compile prepare_summaries;
       bind_then [limit] (execute_query (select_recent limit)));
    load_summaries rows) c).2
  = c.
Proof.
  unfold mbind at 1, M_bind at 1. rewrite recent_rows_run.
  destruct (db_summaries (working c)) as [t|]; [|done].
  case_decide; [|done]. apply load_summaries_connection.
Qed.

Lemma fetch_by_start_date_body_connection start_date c :
  ((rows ← execute_query (select_by_start_date start_date);
    match rows with
    | [] => mret None
    | row :: _ =>
        products ← _fetch_products (s_id row);
        mret (Some (stored_summary row products))
    end) c).2 = c.
Proof.
  unfold mbind, M_bind, execute_query.
  destruct (select_by_start_date start_date (working c)) as [[|row ?]|];
    [done| |done].
  rewrite fetch_products_run.
  by destruct (select_products (s_id row) (working c)).
Qed.

Lemma fetch_recent_summaries_storage limit st :
  (fetch_recent_summaries limit st).2 = st.
Proof.
  destruct st as [|d|]; [done| |done]. unfold fetch_recent_summaries.
  rewrite with_connect_read; [done|]. apply fetch_recent_body_connection.
Qed.

Lemma fetch_by_start_date_storage start_date st :
  (fetch_by_start_date start_date st).2 = st.
Proof.
  destruct st as [|d|]; [done| |done]. unfold fetch_by_start_date.
  rewrite with_connect_read; [done|].
  apply fetch_by_start_date_body_connection.
Qed.

(** C10: the two read operations leave the storage as it was, whatever
    the storage holds and whatever they are asked, also when they
    raise. *)
Theorem reads_leave_storage_unchanged (st : storage) :
  (∀ limit, (fetch_recent_summaries limit st).2 = st)
  ∧ (∀ start_date, (fetch_by_start_date start_date st).2 = st).
Proof.
  destruct st as [|d|]; [done| |done]. split; intros x.
  - unfold fetch_recent_summaries. rewrite with_connect_read; [done|].
    apply fetch_recent_body_connection.
  - unfold fetch_by_start_date. rewrite with_connect_read; [done|].
    apply fetch_by_start_date_body_connection.
Qed.

(** The header row [fetch_by_start_date] selects: among the rows with the
    start date, one whose id is the highest. *)
Lemma select_by_start_date_highest start_date d ts :
  db_summaries d = Some ts →
  select_by_start_date start_date d = Ok [] ∧
    (∀ r, r ∈ tbl_rows ts → s_start_date r ≠ start_date)
  ∨ ∃ row,
      select_by_start_date start_date d = Ok [row]
      ∧ row ∈ tbl_rows ts
      ∧ s_start_date row = start_date
      ∧ ∀ r, r ∈ tbl_rows ts → s_start_date r = start_date →
             s_id r ≤ s_id row.
Proof.
  intros Hts. unfold select_by_start_date. rewrite Hts.
  set (matching := filter (λ r, s_start_date r = start_date) (tbl_rows ts)).
  pose proof (merge_sort_Permutation by_id_desc matching) as Hperm.
  pose proof (StronglySorted_merge_sort by_id_desc matching) as Hsorted.
  destruct (merge_sort by_id_desc matching) as [|row rest] eqn:E.
  - left. split; [done|]. intros r Hr Hstart.
    assert (r ∈ matching) as Hin by (by apply list_elem_of_filter).
    rewrite <- Hperm in Hin. by apply not_elem_of_nil in Hin.
  - right. exists row.
    assert (row ∈ matching) as Hrow by (rewrite <- Hperm; left).
    apply list_elem_of_filter in Hrow as [Hstart Hrow].
    repeat split; [done..|]. intros r Hr Hr'.
    assert (r ∈ row :: rest) as Hin
      by (rewrite Hperm; by apply list_elem_of_filter).
    apply StronglySorted_cons in Hsorted as [Hall _].
    apply elem_of_cons in Hin as [->|Hin]; [done|].
    rewrite Forall_forall in Hall. by apply Hall.
Qed.

(** C5: when the summaries table holds no row with the given start date,
    [fetch_by_start_date] returns [None]: it neither raises nor returns
    a record. *)
Theorem fetch_by_start_date_not_found (d : database)
    (ts : table summary_row) (start_date : string) :
  db_summaries d = Some ts →
  (∀ r, r ∈ tbl_rows ts → s_start_date r ≠ start_date) →
  fetch_by_start_date start_date (File d) = (Ok None, File d).
Proof.
  intros Hts Hnone. unfold fetch_by_start_date.
  rewrite with_connect_read by apply fetch_by_start_date_body_connection.
  f_equal. unfold mbind, M_bind, execute_query. simpl.
  destruct (select_by_start_date_highest start_date d ts Hts)
    as [[-> _]|(row & _ & Hrow & Hstart & _)]; [done|].
  by destruct (Hnone row Hrow).
Qed.

(** What [fetch_by_start_date] returns when a header row matches. *)
Lemma fetch_by_start_date_found start_date d ts tp :
  db_summaries d = Some ts →
  db_products d = Some tp →
  (∃ r, r ∈ tbl_rows ts ∧ s_start_date r = start_date) →
  ∃ row products,
    fetch_by_start_date start_date (File d)
      = (Ok (Some (stored_summary row products)), File d)
    ∧ row ∈ tbl_rows ts
    ∧ s_start_date row = start_date
    ∧ (∀ r, r ∈ tbl_rows ts → s_start_date r = start_date →
            s_id r ≤ s_id row)
    ∧ line_items_of d (s_id row) products
    ∧ line_items d (s_id row) products.
Proof.
  intros Hts Htp (r & Hr & Hstart). unfold fetch_by_start_date.
  rewrite with_connect_read by apply fetch_by_start_date_body_connection.
  destruct (select_by_start_date_highest start_date d ts Hts)
    as [[_ Hnone]|(row & Hsel & Hrow & Hrstart & Hmax)].
  { by destruct (Hnone r Hr). }
  destruct (fetch_products_line_items (s_id row) (connect d) tp Htp)
    as (products & Hp & Hitems & Hitems').
  exists row, products. repeat split; try done; [|by destruct Hitems..].
  f_equal. unfold mbind, M_bind, execute_query. simpl.
  rewrite Hsel. by rewrite Hp.
Qed.

(** C4: when some header row has the given start date,
    [fetch_by_start_date] returns a record that carries the columns of a
    header row with that start date whose surrogate key no other such row
    exceeds, and whose line-items are the records of the rows stored
    under that key, each with the columns of its row, by revenue
    descending. *)
Theorem fetch_by_start_date_latest (d : database)
    (ts : table summary_row) (tp : table product_row)
    (start_date : string) :
  db_summaries d = Some ts →
  db_products d = Some tp →
  (∃ r, r ∈ tbl_rows ts ∧ s_start_date r = start_date) →
  ∃ row s,
    fetch_by_start_date start_date (File d) = (Ok (Some s), File d)
    ∧ row ∈ tbl_rows ts
    ∧ s_start_date row = start_date
    ∧ (∀ r, r ∈ tbl_rows ts → s_start_date r = start_date →
            s_id r ≤ s_id row)
    ∧ header_of row s
    ∧ line_items d (s_id row) (ss_products s).
Proof.
  intros Hts Htp (r & Hr & Hstart). unfold fetch_by_start_date.
  rewrite with_connect_read by apply fetch_by_start_date_body_connection.
  destruct (select_by_start_date_highest start_date d ts Hts)
    as [[_ Hnone]|(row & Hsel & Hrow & Hrstart & Hmax)].
  { by destruct (Hnone r Hr). }
  destruct (fetch_products_line_items (s_id row) (connect d) tp Htp)
    as (products & Hp & _ & Hitems).
  exists row, (stored_summary row products).
  split; [|split; [done|split; [done|split; [done|]]]].
  - f_equal. unfold mbind, M_bind, execute_query. simpl.
    rewrite Hsel. by rewrite Hp.
  - split; [apply stored_summary_columns|done].
Qed.

End read_path.

Section recent.

(** C2, amended: on a storage whose tables exist and for a positive limit
    that fits a signed 64-bit integer, [fetch_recent_summaries] returns
    the records of the first [limit] header rows in the order start date
    descending, then surrogate key descending: each record carries the
    columns of its header row and, as line-items, the records of the
    rows stored under its key, each with the columns of its row, by
    revenue descending; it returns at most [limit] records, and none,
    without raising, when there is no header row. *)
Theorem fetch_recent_summaries_ordered (d : database)
    (ts : table summary_row) (tp : table product_row) (limit : Z) :
  db_summaries d = Some ts →
  db_products d = Some tp →
  0 < limit →
  limit ≤ 2 ^ 63 - 1 →
  ∃ sorted summaries,
    fetch_recent_summaries limit (File d) = (Ok summaries, File d)
    ∧ sorted ≡ₚ tbl_rows ts
    ∧ StronglySorted by_start_date_desc_id_desc sorted
    ∧ Forall2
        (λ row s,
           header_of row s ∧ line_items d (s_id row) (ss_products s))
        (take (Z.to_nat limit) sorted) summaries
    ∧ (length summaries ≤ Z.to_nat limit)%nat
    ∧ (tbl_rows ts = [] → summaries = []).
Proof.
  intros Hts Htp Hlimit Hfits.
  set (sorted := merge_sort by_start_date_desc_id_desc (tbl_rows ts)).
  destruct (load_summaries_line_items
              (take (Z.to_nat limit) sorted) (connect d) tp Htp)
    as (summaries & Hrun & Hall).
  exists sorted, summaries.
  assert (Hperm : sorted ≡ₚ tbl_rows ts) by apply merge_sort_Permutation.
  repeat split.
  - unfold fetch_recent_summaries.
    rewrite with_connect_read by apply fetch_recent_body_connection.
    f_equal. unfold mbind at 1, M_bind at 1. rewrite recent_rows_run.
    simpl. rewrite Hts.
    rewrite decide_True by (unfold fits_int64; lia).
    unfold sql_limit. rewrite decide_False by lia.
    fold sorted. by rewrite Hrun.
  - done.
  - apply StronglySorted_merge_sort; apply _.
  - done.
  - apply Forall2_length in Hall. rewrite <- Hall, length_take. lia.
  - intros Hempty. rewrite Hempty in Hperm.
    apply Permutation_nil_r in Hperm. rewrite Hperm, take_nil in Hall.
    by apply Forall2_nil_inv_l in Hall.
Qed.

End recent.

Section schema.

Lemma initialize_run d :
  initialize (File d)
  = (Ok (),
     File (Database
             (match db_summaries d with
              | Some t => Some t
              | None => Some empty_table
              end)
             (match db_products d with
              | Some t => Some t
              | None => Some empty_table
              end))).
Proof. done. Qed.

(** C7: when both tables exist, [initialize] returns and leaves the
    storage, tables and rows, exactly as it was. *)
Theorem initialize_idempotent (d : database)
    (ts : table summary_row) (tp : table product_row) :
  db_summaries d = Some ts →
  db_products d = Some tp →
  initialize (File d) = (Ok (), File d).
Proof.
  intros Hts Htp. rewrite initialize_run, Hts, Htp.
  destruct d; simpl in *; by subst.
Qed.

(** Unless the directory cannot be created, [initialize] leaves both
    tables in place, and a second call changes nothing. *)
Lemma initialize_initialized st :
  st ≠ Unreachable →
  ∃ d, initialize st = (Ok (), File d) ∧ initialized d
       ∧ initialize (File d) = (Ok (), File d).
Proof.
  destruct st as [|d|]; [| |done]; intros _.
  - exists (Database (Some empty_table) (Some empty_table)).
    by repeat split; eauto.
  - eexists. split; [apply initialize_run|]. split.
    + split; simpl; destruct d as [[?|] [?|]]; simpl; eauto.
    + rewrite initialize_run. by destruct d as [[?|] [?|]].
Qed.

Lemma initialize_keeps_rows d d' :
  initialize (File d) = (Ok (), File d') →
  summary_rows d' = summary_rows d ∧ product_rows d' = product_rows d.
Proof.
  rewrite initialize_run. intros [= <-].
  unfold summary_rows, product_rows. by destruct d as [[?|] [?|]].
Qed.

End schema.

(** ** Rowids *)

Section rowids.
Context {R : Type} (rowid : R → Z).

Lemma largest_rowid_ge rows r :
  r ∈ rows → rowid r ≤ largest_rowid rowid rows.
Proof.
  induction 1 as [r rows|r r' rows _ IH]; simpl; lia.
Qed.

(** A new rowid exceeds every rowid the table holds or ever held. *)
Lemma next_rowid_new t id :
  next_rowid rowid t = Ok id →
  tbl_seq t < id ∧ id ≤ max_rowid ∧ ∀ r, r ∈ tbl_rows t → rowid r < id.
Proof.
  unfold next_rowid. case_decide as Hfull; [done|]. intros [= <-].
  repeat split; [lia..|]. intros r Hr.
  pose proof (largest_rowid_ge _ _ Hr). lia.
Qed.

End rowids.

(** ** Keeping the last entry of each key *)

Section last_per_key.
Context {A K : Type} `{EqDecision K} (key : A → K).

Lemma last_per_key_NoDup l :
  NoDup (key <$> l) → last_per_key key l = l.
Proof.
  induction l as [|x l IH]; simpl; [done|].
  intros [Hx Hl]%NoDup_cons. rewrite decide_False by done.
  by rewrite IH.
Qed.

Lemma last_per_key_subseteq l : last_per_key key l ⊆ l.
Proof.
  induction l as [|x l IH]; simpl; [done|].
  case_decide; [by apply list_subseteq_cons|].
  by apply list_subseteq_skip.
Qed.

(** Every key of the list is the key of exactly the entries kept. *)
Lemma last_per_key_keys l k :
  k ∈ key <$> last_per_key key l ↔ k ∈ key <$> l.
Proof.
  induction l as [|x l IH]; simpl; [done|].
  case_decide as Hx; simpl; rewrite !elem_of_cons, IH; [|done].
  split; [auto|]. by intros [->|?].
Qed.

Lemma last_per_key_NoDup_keys l : NoDup (key <$> last_per_key key l).
Proof.
  induction l as [|x l IH]; simpl; [constructor|].
  case_decide as Hx; [done|]. simpl. constructor; [|done].
  by rewrite last_per_key_keys.
Qed.

Lemma last_per_key_fmap {B K'} `{EqDecision K'} (key' : B → K')
    (f : A → B) l :
  (∀ x y, key' (f x) = key' (f y) ↔ key x = key y) →
  last_per_key key' (f <$> l) = f <$> last_per_key key l.
Proof.
  intros Hkey. induction l as [|x l IH]; [done|].
  rewrite fmap_cons. cbn [last_per_key]. rewrite IH.
  assert (key' (f x) ∈ key' <$> (f <$> l) ↔ key x ∈ key <$> l) as Hin.
  { rewrite <- list_fmap_compose, !list_elem_of_fmap. split.
    - intros (y & Hy & ?). exists y. split; [|done]. by apply Hkey.
    - intros (y & Hy & ?). exists y. split; [|done]. by apply Hkey. }
  destruct (decide (key x ∈ key <$> l)) as [Hx|Hx].
  - by rewrite decide_True by (by apply Hin).
  - by rewrite decide_False by (by rewrite Hin).
Qed.

End last_per_key.

(** ** Writing through a connection *)

Section write_path.

Lemma filter_Forall_id {A} (P : A → Prop) `{!∀ x, Decision (P x)} l :
  Forall P l → filter P l = l.
Proof.
  induction 1 as [|x l Hx _ IH]; [done|].
  by rewrite filter_cons_True, IH.
Qed.

Lemma filter_Forall_nil {A} (P : A → Prop) `{!∀ x, Decision (P x)} l :
  Forall (λ x, ¬ P x) l → filter P l = [].
Proof.
  induction 1 as [|x l Hx _ IH]; [done|].
  by rewrite filter_cons_False.
Qed.

(** No statement changes what is committed: only leaving the [with]
    block does. *)
Lemma execute_dml_committed {A}
    (stmt : bool → database → result (A * database)) c :
  committed (execute_dml stmt c).2 = committed c.
Proof.
  unfold execute_dml.
  by destruct (stmt (foreign_keys c) (working c)) as [[a d]|e].
Qed.

Lemma bind_committed {A B} (m : M A) (f : A → M B) :
  (∀ c, committed (m c).2 = committed c) →
  (∀ a c, committed (f a c).2 = committed c) →
  ∀ c, committed ((m ≫= f) c).2 = committed c.
Proof.
  intros Hm Hf c. unfold mbind, M_bind. specialize (Hm c).
  destruct (m c) as [[a|e] c1]; simpl in *; [|done].
  by rewrite Hf.
Qed.

Lemma bind_then_committed {A} integers (run : M A) :
  (∀ c, committed (run c).2 = committed c) →
  ∀ c, committed (bind_then integers run c).2 = committed c.
Proof. intros Hrun c. unfold bind_then. by case_decide. Qed.

Lemma executemany_committed {P A} prepare (integers : P → list Z)
    (stmt : P → bool → database → result (A * database)) rows c :
  committed (executemany prepare integers stmt rows c).2 = committed c.
Proof.
  revert c. apply bind_committed; [done|]. intros _.
  induction rows as [|p rows IH]; [done|]. cbn [executemany_rows].
  apply bind_committed; [|done].
  apply bind_then_committed, execute_dml_committed.
Qed.

Lemma save_summary_block_committed created_at summary c :
  committed (save_summary_block created_at summary c).2 = committed c.
Proof.
  revert c. unfold save_summary_block.
  apply bind_committed.
  { intros c. unfold pragma_foreign_keys_on. by destruct (in_transaction c). }
  intros _. apply bind_committed.
  { apply bind_committed; [done|]. intros _.
    apply bind_then_committed, execute_dml_committed. }
  intros id. apply bind_committed; [|done].
  apply executemany_committed.
Qed.

(** A call that raises leaves the storage as it found it. *)
Lemma save_summary_failure created_at summary st e st' :
  save_summary created_at summary st = (Err e, st') → st' = st.
Proof.
  destruct st as [|d|]; [by intros [= _ <-]| |by intros [= _ <-]].
  unfold save_summary, with_connect.
  pose proof (save_summary_block_committed created_at summary (connect d))
    as Hc.
  destruct (save_summary_block created_at summary (connect d)) as [r c].
  intros [= -> <-]. simpl in *. by rewrite Hc.
Qed.

Lemma product_params_of_row id q :
  product_params_of (product_row_of id q) = q.
Proof. by destruct q. Qed.

Lemma product_key_row id q :
  product_key (product_row_of id q) = params_key q.
Proof. done. Qed.

Lemma insert_product_replace_run q fk d id d' :
  insert_product Replace q fk d = Ok (id, d') →
  ∃ tp,
    db_products d = Some tp
    ∧ next_rowid p_id tp = Ok id
    ∧ check_parent fk d (q_summary_id q) = Ok ()
    ∧ d' = Database (db_summaries d)
             (Some (Table
                      (filter (λ r, product_key r ≠ params_key q)
                              (tbl_rows tp)
                       ++ [product_row_of id q])
                      id)).
Proof.
  unfold insert_product. destruct (db_products d) as [tp|]; [|done].
  destruct (next_rowid p_id tp) as [id'|] eqn:Hid; [|done].
  destruct (check_parent fk d (q_summary_id q)) as [[]|]; [|done].
  simpl. intros ?. simplify_eq. by exists tp.
Qed.

(** What the line-item statement leaves when it has run for every
    parameter row: the rows whose key none of the parameter rows has,
    then one new row for the last parameter row of each key; every
    integer of the parameter rows fits. *)
Lemma executemany_rows_replace_ok qs c c' :
  executemany_rows product_integers (insert_product Replace) qs c
  = (Ok (), c') →
  db_summaries (working c') = db_summaries (working c)
  ∧ (is_Some (db_products (working c)) →
     is_Some (db_products (working c')))
  ∧ Forall (λ q, Forall fits_int64 (product_integers q)) qs
  ∧ ∃ new,
      product_rows (working c')
      = filter (λ r, product_key r ∉ params_key <$> qs)
               (product_rows (working c)) ++ new
      ∧ product_params_of <$> new = last_per_key params_key qs.
Proof.
  revert c. induction qs as [|q qs IH]; intros c; simpl.
  { intros [= <-]. do 3 (split; [done|]). exists []. split; [|done].
    rewrite app_nil_r, filter_Forall_id; [done|].
    apply Forall_forall. intros r _. apply not_elem_of_nil. }
  unfold mbind, M_bind, bind_then at 1.
  destruct (decide (Forall fits_int64 (product_integers q))) as [Hfits|];
    [|done].
  unfold execute_dml at 1.
  destruct (insert_product Replace q (foreign_keys c) (working c))
    as [[id d1]|e] eqn:Hins; [|done].
  apply insert_product_replace_run in Hins as (tp & Htp & _ & _ & ->).
  intros (Hsum & Htable & Hall & new & Hrows & Hnew)%IH. simpl in *.
  split; [done|]. split; [intros _; by apply Htable|].
  split; [by constructor|].
  exists (filter (λ r, product_key r ∉ params_key <$> qs)
                 [product_row_of id q] ++ new).
  unfold product_rows in *. rewrite Htp. simpl in *.
  rewrite Hrows, filter_app, list_filter_filter, <- (assoc_L (++)).
  split.
  - f_equal. apply list_filter_iff. intros r.
    rewrite not_elem_of_cons. by split; intros [].
  - rewrite fmap_app, Hnew, filter_singleton; [|exact []].
    rewrite product_key_row.
    destruct (decide (params_key q ∈ params_key <$> qs)) as [Hq|Hq].
    + by rewrite decide_False by (intros Hn; by apply Hn).
    + rewrite decide_True by done. simpl.
      by rewrite product_params_of_row.
Qed.

Lemma executemany_replace_ok qs c c' :
  executemany prepare_products product_integers (insert_product Replace)
    qs c = (Ok (), c') →
  is_Some (db_products (working c))
  ∧ executemany_rows product_integers (insert_product Replace) qs c
    = (Ok (), c').
Proof.
  unfold executemany, mbind, M_bind, compile, prepare_products.
  destruct (db_products (working c)) as [tp|]; [|done].
  destruct (if foreign_keys c then _ else _) as [[]|]; [|done].
  intros Hrows. by split; [eexists|].
Qed.

End write_path.

Section save.

Lemma product_tuple_key id p :
  params_key (product_tuple id p) = (id, asin p).
Proof. done. Qed.

Lemma last_per_key_product_tuple id ps :
  last_per_key params_key (product_tuple id <$> ps)
  = product_tuple id <$> last_per_key asin ps.
Proof.
  apply last_per_key_fmap. intros x y. rewrite !product_tuple_key.
  split; [by intros [= ?] | by intros ->].
Qed.

(** The block of [save_summary] on a new connection, when it returns: the
    header statement was compiled, bound and run, and the line-item
    statement ran on the connection that holds the new header. *)
Lemma save_summary_block_ok created_at summary d id c' :
  save_summary_block created_at summary (connect d) = (Ok id, c') →
  ∃ ts,
    db_summaries d = Some ts
    ∧ next_rowid s_id ts = Ok id
    ∧ fits_int64 (total_units (totals summary))
    ∧ fits_int64 (total_sessions (totals summary))
    ∧ executemany prepare_products product_integers
        (insert_product Replace)
        (product_tuple id <$> top_products summary)
        (Connection d
           (Database
              (Some (Table (tbl_rows ts
                            ++ [header_row id created_at summary]) id))
              (db_products d))
           true true)
      = (Ok (), c').
Proof.
  unfold save_summary_block, mbind, M_bind, compile, prepare_summaries,
    bind_then.
  simpl.
  destruct (db_summaries d) as [ts|] eqn:Hts; [|done].
  destruct (decide (Forall fits_int64 _)) as [Hfits|]; [|done].
  unfold execute_dml at 1, insert_summary. simpl. rewrite Hts.
  destruct (next_rowid s_id ts) as [id'|] eqn:Hid; [|done].
  match goal with
  | |- context [executemany ?prep ?ints ?stmt ?rows ?c] =>
      destruct (executemany prep ints stmt rows c) as [[[]|e] c2] eqn:Hmany
  end; [|done].
  intros [= <- <-]. exists ts.
  apply Forall_cons in Hfits as [Hunits Hfits].
  apply Forall_cons in Hfits as [Hsessions _].
  split; [done|]. split; [done|]. split; [done|]. split; [done|].
  exact Hmany.
Qed.

(** What a call of [save_summary] that returns leaves in the storage. *)
Lemma save_summary_ok created_at summary d id st' :
  save_summary created_at summary (File d) = (Ok id, st') →
  ∃ ts d' new,
    st' = File d'
    ∧ db_summaries d = Some ts
    ∧ next_rowid s_id ts = Ok id
    ∧ db_summaries d'
      = Some (Table (tbl_rows ts ++ [header_row id created_at summary]) id)
    ∧ (is_Some (db_products d) → is_Some (db_products d'))
    ∧ product_rows d'
      = filter
          (λ r, product_key r
                ∉ params_key <$> (product_tuple id <$> top_products summary))
          (product_rows d) ++ new
    ∧ product_params_of <$> new
      = product_tuple id <$> last_per_key asin (top_products summary).
Proof.
  unfold save_summary, with_connect.
  destruct (save_summary_block created_at summary (connect d))
    as [r c2] eqn:Hblock.
  intros [= -> <-].
  apply save_summary_block_ok in Hblock as (ts & Hts & Hid & _ & _ & Hmany).
  apply executemany_replace_ok in Hmany as [_ Hmany].
  apply executemany_rows_replace_ok in Hmany
    as (Hsum & Htable & _ & new & Hrows & Hnew).
  cbn [is_ok commit committed working] in *.
  exists ts, (working c2), new.
  rewrite last_per_key_product_tuple in Hnew. by repeat split.
Qed.

(** A call of [save_summary] returns only where both tables exist and for
    a summary whose integers all fit. *)
Lemma save_summary_ok_bindable created_at summary d id st' :
  save_summary created_at summary (File d) = (Ok id, st') →
  is_Some (db_products d) ∧ bindable summary.
Proof.
  unfold save_summary, with_connect.
  destruct (save_summary_block created_at summary (connect d))
    as [r c2] eqn:Hblock.
  intros [= -> <-].
  apply save_summary_block_ok in Hblock
    as (ts & Hts & Hid & Hunits & Hsessions & Hmany).
  apply executemany_replace_ok in Hmany as [Htp Hmany].
  apply executemany_rows_replace_ok in Hmany as (_ & _ & Hfits & _).
  split; [done|]. split; [done|]. split; [done|].
  apply Forall_forall. intros p Hp. rewrite Forall_forall in Hfits.
  assert (Forall fits_int64 (product_integers (product_tuple id p)))
    as Hints by (by apply Hfits, list_elem_of_fmap_2).
  unfold product_integers in Hints. simpl in Hints.
  apply Forall_cons in Hints as [_ Hints].
  apply Forall_cons in Hints as [? Hints].
  apply Forall_cons in Hints as [? Hints].
  by apply Forall_cons in Hints as [? _].
Qed.

(** Under referential integrity no stored line-item has a key that a new
    header's line-items could collide with. *)
Lemma no_collision_with_new_key d ts id (ps : list ProductPerformance) :
  referential_integrity d →
  db_summaries d = Some ts →
  next_rowid s_id ts = Ok id →
  filter (λ r, product_key r ∉ params_key <$> (product_tuple id <$> ps))
         (product_rows d)
  = product_rows d
  ∧ filter (λ r, p_summary_id r = id) (product_rows d) = [].
Proof.
  intros Hint Hts Hid.
  assert (∀ r, r ∈ product_rows d → p_summary_id r ≠ id) as Hother.
  { intros r Hr%Hint. unfold summary_rows in Hr. rewrite Hts in Hr.
    apply list_elem_of_fmap in Hr as (h & -> & Hh).
    apply next_rowid_new in Hid as (_ & _ & Hlt).
    specialize (Hlt h Hh). lia. }
  split.
  - apply filter_Forall_id, Forall_forall. intros r Hr.
    rewrite <- list_fmap_compose. intros (p & Hkey & _)%list_elem_of_fmap.
    injection Hkey as Hsid _. by apply (Hother r).
  - apply filter_Forall_nil, Forall_forall. intros r Hr. by apply Hother.
Qed.

(** Both tables in place and referential integrity are kept by
    [save_summary]. *)
Lemma save_summary_invariant created_at summary d r d' :
  initialized d →
  referential_integrity d →
  save_summary created_at summary (File d) = (r, File d') →
  initialized d' ∧ referential_integrity d'.
Proof.
  intros Hinit Hint Hsave. destruct r as [id|e].
  - apply save_summary_ok in Hsave
      as (ts & d'' & new & [= <-] & Hts & Hid & Hts' & Hp & Hrows & Hnew).
    split; [split; [by rewrite Hts'|apply Hp, Hinit]|].
    destruct (no_collision_with_new_key d ts id (top_products summary))
      as [Hkeep _]; [done..|].
    rewrite Hkeep in Hrows. intros p. rewrite Hrows.
    unfold summary_rows at 1. rewrite Hts'. simpl.
    rewrite fmap_app, !elem_of_app. intros [Hp'|Hp'].
    + left. apply Hint in Hp'. unfold summary_rows in Hp'.
      by rewrite Hts in Hp'.
    + right. simpl. apply list_elem_of_singleton.
      assert (product_params_of p ∈ product_params_of <$> new) as Hq
        by (by apply list_elem_of_fmap_2).
      rewrite Hnew in Hq.
      apply list_elem_of_fmap in Hq as (p0 & Hq & _).
      by apply (f_equal q_summary_id) in Hq.
  - apply save_summary_failure in Hsave. by simplify_eq.
Qed.

(** C1: a call of [save_summary] is all or nothing.  If it raises, the
    storage is what it was before the call: neither the header row nor
    any line-item row of the call is there.  If it returns, the storage
    holds the header row under the returned key together with its
    line-items: a row under that key for the product identifier of every
    entry of the input, with the values of the last entry of that
    identifier, hence of every entry when the identifiers are pairwise
    distinct. *)
Theorem save_summary_atomic (created_at : string)
    (summary : DashboardSummary) (st : storage) :
  match save_summary created_at summary st with
  | (Err _, st') => st' = st
  | (Ok id, st') =>
      ∃ d',
        st' = File d'
        ∧ header_row id created_at summary ∈ summary_rows d'
        ∧ (∀ p, p ∈ top_products summary →
                ∃ row, row ∈ product_rows d'
                       ∧ p_summary_id row = id ∧ p_asin row = asin p)
        ∧ (∀ p, p ∈ last_per_key asin (top_products summary) →
                ∃ row, row ∈ product_rows d'
                       ∧ product_params_of row = product_tuple id p)
        ∧ (NoDup (asin <$> top_products summary) →
           ∀ p, p ∈ top_products summary →
                ∃ row, row ∈ product_rows d'
                       ∧ product_params_of row = product_tuple id p)
  end.
Proof.
  destruct (save_summary created_at summary st) as [[id|e] st'] eqn:Hsave;
    [|by eapply save_summary_failure].
  destruct st as [|d|]; [done| |done].
  apply save_summary_ok in Hsave
    as (ts & d' & new & -> & Hts & Hid & Hts' & _ & Hrows & Hnew).
  assert (∀ p, p ∈ last_per_key asin (top_products summary) →
               ∃ row, row ∈ product_rows d'
                      ∧ product_params_of row = product_tuple id p)
    as Hlast.
  { intros p Hp.
    assert (product_tuple id p ∈ product_params_of <$> new) as Hq
      by (rewrite Hnew; by apply list_elem_of_fmap_2).
    apply list_elem_of_fmap in Hq as (row & Hq & Hrow).
    exists row. split; [|done]. rewrite Hrows. apply elem_of_app. by right. }
  exists d'. split; [done|]. split; [|split; [|split]].
  - unfold summary_rows. rewrite Hts'. simpl.
    apply elem_of_app. right. by apply list_elem_of_singleton.
  - intros p Hp.
    assert (asin p ∈ asin <$> last_per_key asin (top_products summary))
      as Hkey by (apply last_per_key_keys; by apply list_elem_of_fmap_2).
    apply list_elem_of_fmap in Hkey as (p' & Hasin & Hp').
    destruct (Hlast p' Hp') as (row & Hrow & Hvalues).
    exists row. split; [done|]. rewrite Hasin.
    split; [by apply (f_equal q_summary_id) in Hvalues
           |by apply (f_equal q_asin) in Hvalues].
  - done.
  - intros Hnodup. by rewrite last_per_key_NoDup in Hlast.
Qed.

End save.

Section save_results.

(** C9, amended: a call of [save_summary] that returns appends exactly
    one header row, under a key greater than every key the table holds
    or ever held, returns that key, and appends under that key one
    line-item row for each distinct product identifier of the input,
    carrying the values of the last entry with that identifier; when the
    identifiers of the entries are pairwise distinct this is one row per
    entry.  The line-items stored before are all kept when the storage
    satisfies referential integrity. *)
Theorem save_summary_inserts (created_at : string)
    (summary : DashboardSummary) (d : database) (id : Z) (st' : storage) :
  save_summary created_at summary (File d) = (Ok id, st') →
  ∃ d' kept new,
    st' = File d'
    ∧ summary_rows d' = summary_rows d ++ [header_row id created_at summary]
    ∧ (∀ r, r ∈ summary_rows d → s_id r < id)
    ∧ (∀ ts, db_summaries d = Some ts → tbl_seq ts < id)
    ∧ product_rows d' = kept ++ new
    ∧ kept ⊆ product_rows d
    ∧ (referential_integrity d → kept = product_rows d)
    ∧ Forall (λ r, p_summary_id r = id) new
    ∧ p_asin <$> new = asin <$> last_per_key asin (top_products summary)
    ∧ NoDup (p_asin <$> new)
    ∧ product_params_of <$> new
      = product_tuple id <$> last_per_key asin (top_products summary)
    ∧ (NoDup (asin <$> top_products summary) →
       product_params_of <$> new
       = product_tuple id <$> top_products summary).
Proof.
  intros Hsave.
  apply save_summary_ok in Hsave
    as (ts & d' & new & -> & Hts & Hid & Hts' & _ & Hrows & Hnew).
  pose proof (next_rowid_new _ _ _ Hid) as (Hseq & _ & Hlt).
  assert (p_asin <$> new
          = asin <$> last_per_key asin (top_products summary)) as Hasin.
  { apply (f_equal (fmap q_asin)) in Hnew.
    by rewrite <- !list_fmap_compose in Hnew. }
  eexists d', _, new. unfold summary_rows. rewrite Hts, Hts'. simpl.
  split; [done|]. split; [done|]. split; [done|].
  split; [by intros ts' [= <-]|]. split; [exact Hrows|].
  split; [apply list_subseteq_filter|].
  split; [intros Hint; by apply (no_collision_with_new_key d ts id)|].
  split; [|split; [done|split; [|split; [done|]]]].
  - apply Forall_forall. intros r Hr.
    assert (product_params_of r ∈ product_params_of <$> new) as Hq
      by (by apply list_elem_of_fmap_2).
    rewrite Hnew in Hq. apply list_elem_of_fmap in Hq as (p0 & Hq & _).
    by apply (f_equal q_summary_id) in Hq.
  - rewrite Hasin. apply last_per_key_NoDup_keys.
  - intros Hnodup. by rewrite last_per_key_NoDup in Hnew.
Qed.

(** Reading a summary back right after writing it. *)
Lemma save_then_fetch created_at summary d tp id st' :
  db_products d = Some tp →
  referential_integrity d →
  save_summary created_at summary (File d) = (Ok id, st') →
  ∃ products,
    fetch_by_start_date (isoformat (start summary)) st'
    = (Ok (Some (stored_summary (header_row id created_at summary)
                   products)), st')
    ∧ products
      ≡ₚ stored_of_performance <$> last_per_key asin (top_products summary)
    ∧ StronglySorted revenue_desc products.
Proof.
  intros Htp Hint Hsave.
  apply save_summary_ok in Hsave
    as (ts & d' & new & -> & Hts & Hid & Hts' & Hp & Hrows & Hnew).
  destruct (no_collision_with_new_key d ts id (top_products summary))
    as [Hkeep Hnone]; [done..|].
  rewrite Hkeep in Hrows.
  destruct Hp as [tp' Htp']; [by eexists|].
  pose proof (next_rowid_new _ _ _ Hid) as (_ & _ & Hlt).
  set (header := header_row id created_at summary).
  destruct (fetch_by_start_date_found (isoformat (start summary)) d' _ tp'
              Hts' Htp')
    as (row & products & Hfetch & Hrow & _ & Hmax & [Hperm Hsorted] & _).
  { exists header. split; [|done]. simpl.
    apply elem_of_app. right. by apply list_elem_of_singleton. }
  assert (row = header) as ->.
  { simpl in Hrow, Hmax. apply elem_of_app in Hrow as [Hrow|Hrow].
    - specialize (Hlt row Hrow).
      assert (s_id header ≤ s_id row) as Hle.
      { apply Hmax; [|done]. apply elem_of_app. right.
        by apply list_elem_of_singleton. }
      simpl in Hle. lia.
    - by apply list_elem_of_singleton in Hrow. }
  exists products. split; [done|]. split; [|done].
  rewrite Hperm, Hrows, filter_app. simpl. rewrite Hnone. simpl.
  rewrite filter_Forall_id.
  - set (drop_key := λ q : product_params,
           {| sp_asin := q_asin q; sp_title := q_title q;
              sp_revenue := q_revenue q; sp_units := q_units q;
              sp_sessions := q_sessions q;
              sp_conversion_rate := q_conversion_rate q;
              sp_refunds := q_refunds q;
              sp_buy_box_percentage := q_buy_box_percentage q |}).
    apply (f_equal (fmap drop_key)) in Hnew.
    rewrite <- !list_fmap_compose in Hnew.
    replace (stored_product <$> new)
      with (drop_key ∘ product_params_of <$> new) by done.
    by rewrite Hnew.
  - apply Forall_forall. intros r Hr.
    assert (product_params_of r ∈ product_params_of <$> new) as Hq
      by (by apply list_elem_of_fmap_2).
    rewrite Hnew in Hq. apply list_elem_of_fmap in Hq as (p0 & Hq & _).
    by apply (f_equal q_summary_id) in Hq.
Qed.

(** C3, amended: after [save_summary] has written a summary to a storage
    in which its start date was unused, [fetch_by_start_date] with that
    start date returns a record whose header fields are the written ones
    and whose line-items are, by revenue descending, the written product
    entries, of which only the last one of each product identifier is
    kept; when the identifiers are pairwise distinct these are exactly
    the written entries. *)
Theorem save_then_fetch_by_start_date (created_at : string)
    (summary : DashboardSummary) (d : database)
    (tp : table product_row) (id : Z) (st' : storage) :
  db_products d = Some tp →
  referential_integrity d →
  (∀ r, r ∈ summary_rows d →
        s_start_date r ≠ isoformat (start summary)) →
  save_summary created_at summary (File d) = (Ok id, st') →
  ∃ products,
    fetch_by_start_date (isoformat (start summary)) st'
    = (Ok (Some
             {| ss_id := id;
                ss_start := isoformat (start summary);
                ss_end := isoformat (end_ summary);
                ss_source := source_name summary;
                ss_total_revenue := total_revenue (totals summary);
                ss_total_units := total_units (totals summary);
                ss_total_sessions := total_sessions (totals summary);
                ss_conversion_rate :=
                  totals_conversion_rate (totals summary);
                ss_refund_rate := refund_rate (totals summary);
                ss_created_at := created_at;
                ss_products := products |}), st')
    ∧ products
      ≡ₚ stored_of_performance <$> last_per_key asin (top_products summary)
    ∧ StronglySorted revenue_desc products
    ∧ (NoDup (asin <$> top_products summary) →
       products ≡ₚ stored_of_performance <$> top_products summary).
Proof.
  intros Htp Hint _ Hsave.
  destruct (save_then_fetch _ _ _ _ _ _ Htp Hint Hsave)
    as (products & Hfetch & Hperm & Hsorted).
  exists products. repeat split; try done.
  intros Hnodup. by rewrite last_per_key_NoDup in Hperm.
Qed.

End save_results.

Section constraints.

(** C6: when a stored line-item has the (summary key, product identifier)
    pair of the row being written, the statement of [save_summary] that
    writes a line-item returns instead of raising, and afterwards the
    table holds exactly one row for that pair, carrying the values just
    written; the rows of other pairs and the headers are as before. *)
Theorem insert_or_replace_on_collision (d : database)
    (tp : table product_row) (q : product_params) (fk : bool)
    (old : product_row) :
  referential_integrity d →
  db_products d = Some tp →
  old ∈ tbl_rows tp →
  product_key old = params_key q →
  Z.max (tbl_seq tp) (largest_rowid p_id (tbl_rows tp)) < max_rowid →
  ∃ id d',
    insert_product Replace q fk d = Ok (id, d')
    ∧ filter (λ r, product_key r = params_key q) (product_rows d')
      = [product_row_of id q]
    ∧ product_params_of (product_row_of id q) = q
    ∧ filter (λ r, product_key r ≠ params_key q) (product_rows d')
      = filter (λ r, product_key r ≠ params_key q) (product_rows d)
    ∧ summary_rows d' = summary_rows d.
Proof.
  intros Hint Htp Hold Hkey Hleft.
  assert (check_parent fk d (q_summary_id q) = Ok ()) as Hparent.
  { unfold check_parent. destruct fk; [|done].
    assert (old ∈ product_rows d) as Hin
      by (unfold product_rows; by rewrite Htp).
    apply Hint in Hin. injection Hkey as Hsid _. rewrite Hsid in Hin.
    unfold summary_rows in Hin.
    destruct (db_summaries d) as [ts|]; [|by apply not_elem_of_nil in Hin].
    by rewrite decide_True. }
  unfold insert_product, next_rowid. rewrite Htp.
  rewrite decide_False by lia. rewrite Hparent.
  eexists _, _. split; [done|].
  unfold product_rows, summary_rows. rewrite Htp. simpl.
  rewrite !filter_app, !filter_singleton by exact [].
  rewrite product_params_of_row.
  change (q_summary_id q, q_asin q) with (params_key q).
  repeat split.
  - rewrite decide_True by done. rewrite filter_Forall_nil; [done|].
    apply Forall_forall. by intros r [Hr _]%list_elem_of_filter.
  - rewrite decide_False by (intros Hne; by apply Hne).
    rewrite app_nil_r. apply filter_Forall_id, Forall_forall.
    by intros r [Hr _]%list_elem_of_filter.
Qed.

(** The same row written by a plain [INSERT] raises. *)
Lemma plain_insert_on_collision d tp q fk old :
  db_products d = Some tp →
  old ∈ tbl_rows tp →
  product_key old = params_key q →
  Z.max (tbl_seq tp) (largest_rowid p_id (tbl_rows tp)) < max_rowid →
  insert_product Abort q fk d = Err UniqueFailed.
Proof.
  intros Htp Hold Hkey Hleft. unfold insert_product, next_rowid.
  rewrite Htp, decide_False by lia. rewrite decide_True; [done|].
  change (q_summary_id q, q_asin q) with (params_key q).
  rewrite <- Hkey. by apply list_elem_of_fmap_2.
Qed.

(** [PRAGMA foreign_keys = ON], sent first on a new connection as
    [initialize] sends it, turns the enforcement on. *)
Lemma pragma_enforces d :
  foreign_keys (pragma_foreign_keys_on (connect d)).2 = true.
Proof. done. Qed.

(** C8: on a connection that enforces foreign keys, a [DELETE] on
    [summaries] that returns has removed, with each header row it
    deleted, every line-item row of that header's key: no such row is
    left, and [_fetch_products] finds none.  The line-items of the
    headers it kept are all still there. *)
Theorem delete_summary_cascades (c c' : connection)
    (which : summary_row → bool) :
  foreign_keys c = true →
  execute_dml (delete_summaries which) c = (Ok (), c') →
  (∀ h, h ∈ summary_rows (working c) → which h = true →
        (h ∉ summary_rows (working c'))
        ∧ (∀ p, p ∈ product_rows (working c') → p_summary_id p ≠ s_id h)
        ∧ (is_Some (db_products (working c)) →
           _fetch_products (s_id h) c' = (Ok [], c')))
  ∧ (∀ p, p ∈ product_rows (working c) →
          (∀ h, h ∈ summary_rows (working c) → which h = true →
                p_summary_id p ≠ s_id h) →
          p ∈ product_rows (working c')).
Proof.
  intros Hfk. unfold execute_dml, delete_summaries. rewrite Hfk.
  unfold summary_rows, product_rows.
  destruct (db_summaries (working c)) as [ts|]; [|done].
  assert (∀ h, h ∈ tbl_rows ts → which h = true →
               s_id h ∈ s_id <$> filter (λ r, which r = true) (tbl_rows ts))
    as Hdeleted.
  { intros h Hh Hwhich. apply list_elem_of_fmap_2.
    by apply list_elem_of_filter. }
  destruct (db_products (working c)) as [tp|]; simpl;
    intros ?; simplify_eq; simpl.
  - split.
    + intros h Hh Hwhich. split; [|split].
      * by intros [? _]%list_elem_of_filter.
      * intros p [Hp _]%list_elem_of_filter Hsid.
        apply Hp. rewrite Hsid. by apply Hdeleted.
      * intros _. rewrite fetch_products_run. simpl.
        rewrite list_filter_filter, filter_Forall_nil; [done|].
        apply Forall_forall. intros p _ [Hsid Hp].
        apply Hp. rewrite Hsid. by apply Hdeleted.
    + intros p Hp Hkept. apply list_elem_of_filter. split; [|done].
      intros (h & Hsid & [Hwhich Hh]%list_elem_of_filter)%list_elem_of_fmap.
      by apply (Hkept h).
  - split.
    + intros h Hh Hwhich. split; [|split].
      * by intros [? _]%list_elem_of_filter.
      * by intros p ?%not_elem_of_nil.
      * by intros [? ?].
    + by intros p ?%not_elem_of_nil.
Qed.

End constraints.

(** ** What every storage the repository produces satisfies *)

Section invariant.

Lemma with_connect_file {A} (body : M A) d :
  ∃ d', (with_connect body (File d)).2 = File d'.
Proof.
  unfold with_connect. destruct (body (connect d)) as [r c]. by eexists.
Qed.

Lemma delete_headers_invariant which d r d' :
  initialized d →
  referential_integrity d →
  delete_headers true which (File d) = (r, File d') →
  initialized d' ∧ referential_integrity d'.
Proof.
  intros [[ts Hts] [tp Htp]] Hint.
  unfold delete_headers, with_connect, mbind, M_bind, execute_dml,
    delete_summaries. simpl. rewrite Hts, Htp. simpl. intros [= _ <-].
  split; [split; by eexists|].
  intros p. unfold product_rows, summary_rows. simpl.
  intros [Hkept Hp]%list_elem_of_filter.
  assert (p ∈ product_rows d) as Hin
    by (unfold product_rows; by rewrite Htp).
  apply Hint in Hin. unfold summary_rows in Hin. rewrite Hts in Hin.
  apply list_elem_of_fmap in Hin as (h & Hsid & Hh).
  rewrite Hsid. apply list_elem_of_fmap_2, list_elem_of_filter.
  split; [|done]. intros Hwhich. apply Hkept. rewrite Hsid.
  by apply list_elem_of_fmap_2, list_elem_of_filter.
Qed.

(** Both tables exist and every line-item belongs to a stored summary in
    every storage the repository produces. *)
Lemma produced_invariant st :
  produced st →
  ∃ d, st = File d ∧ initialized d ∧ referential_integrity d.
Proof.
  induction 1 as [| |st _ (d & -> & Hinit & Hint)
                 |st created_at summary _ (d & -> & Hinit & Hint)
                 |st limit _ IH|st start_date _ IH
                 |st which _ (d & -> & Hinit & Hint)].
  - exists database_new. by repeat split; [eexists..|intros p ?%not_elem_of_nil].
  - exists database_new. by repeat split; [eexists..|intros p ?%not_elem_of_nil].
  - exists d. destruct Hinit as [[ts Hts] [tp Htp]].
    rewrite initialize_run, Hts, Htp.
    replace (Database (Some ts) (Some tp)) with d
      by (destruct d; simpl in *; by subst).
    by repeat split; [eexists..|].
  - destruct (save_summary created_at summary (File d)) as [r st'] eqn:Hsave.
    assert (∃ d', st' = File d') as [d' ->].
    { destruct (with_connect_file
                  (save_summary_block created_at summary) d) as [d' Hd'].
      exists d'. unfold save_summary in Hsave. by rewrite Hsave in Hd'. }
    exists d'. split; [done|]. by eapply save_summary_invariant.
  - by rewrite fetch_recent_summaries_storage.
  - by rewrite fetch_by_start_date_storage.
  - destruct (delete_headers true which (File d)) as [r st'] eqn:Hdelete.
    assert (∃ d', st' = File d') as [d' ->].
    { unfold delete_headers in Hdelete.
      match type of Hdelete with
      | with_connect ?body _ = _ =>
          destruct (with_connect_file body d) as [d' Hd']
      end.
      exists d'. by rewrite Hdelete in Hd'. }
    exists d'. split; [done|]. by eapply delete_headers_invariant.
Qed.

End invariant.

(** ** The properties on the sample data *)

Section samples.

Local Ltac by_evaluation := vm_compute; done.
Local Ltac by_decision := apply (bool_decide_unpack _); by_evaluation.

(** A failure after the header was written: the connection has the
    header row and the first line-item when the second line-item finds
    no rowid left, and nothing of it reaches the storage. *)
Example save_summary_rolls_back :
  let run := save_summary_block "2024-01-08T09:00:00" report_A
               (connect database_nearly_full) in
  run.1 = Err DatabaseFull
  ∧ summary_rows (working run.2)
    = [header_row 1 "2024-01-08T09:00:00" report_A]
  ∧ length (product_rows (working run.2)) = 1%nat
  ∧ save_summary "2024-01-08T09:00:00" report_A (File database_nearly_full)
    = (Err DatabaseFull, File database_nearly_full).
Proof. by_evaluation. Qed.

(** The round trip of the specification: "P1", with revenue 600, comes
    back before "P2", with revenue 400, though it was written second. *)
Example round_trip_report_A :
  (fetch_by_start_date "2024-01-01" (File database_A)).1
  = Ok (Some
          {| ss_id := 1; ss_start := "2024-01-01"; ss_end := "2024-01-07";
             ss_source := "reportA"; ss_total_revenue := 1000%Q;
             ss_total_units := 50; ss_total_sessions := 500;
             ss_conversion_rate := 0.1%Q; ss_refund_rate := 0.02%Q;
             ss_created_at := "2024-01-08T09:00:00";
             ss_products :=
               [stored_of_performance product_P1;
                stored_of_performance product_P2] |}).
Proof. by_evaluation. Qed.

(** Recency: of the summaries starting 2024-01-01 and 2024-01-08, written
    in that order, [fetch_recent_summaries 1] returns the latter only; of
    the two summaries starting 2024-01-01, [fetch_by_start_date] returns
    the one written later. *)
Example recency_on_samples :
  match (fetch_recent_summaries 1 (File database_AB)).1 with
  | Ok summaries => ss_start <$> summaries
  | Err _ => []
  end = ["2024-01-08"]
  ∧ match (fetch_by_start_date "2024-01-01" (File database_AA)).1 with
    | Ok (Some s) => Some (ss_id s, ss_created_at s)
    | _ => None
    end = Some (2, "2024-01-09T09:00:00").
Proof. by_evaluation. Qed.

(** Deleting the header of key 1 on a connection that enforces foreign
    keys removes its two line-items; on a connection that does not, they
    stay behind without a header. *)
Example delete_with_and_without_enforcement :
  let which := λ r, s_id r =? 1 in
  let line_items st :=
    filter (λ r, p_summary_id r = 1) (product_rows (database_of st)) in
  length (line_items (File database_AB)) = 2%nat
  ∧ line_items (delete_headers true which (File database_AB)).2 = []
  ∧ length (line_items (delete_headers false which (File database_AB)).2)
    = 2%nat
  ∧ ¬ referential_integrity
        (database_of (delete_headers false which (File database_AB)).2).
Proof.
  repeat split; [by_evaluation..|].
  intros Hint. apply (bool_decide_pack _) in Hint. by vm_compute in Hint.
Qed.

Lemma fetch_recent_summaries_ordered_witness :
  let d := database_AB in
  db_summaries d = Some (Table (summary_rows d) 2)
  ∧ db_products d = Some (Table (product_rows d) 3)
  ∧ 0 < 1
  ∧ 1 ≤ 2 ^ 63 - 1
  ∧ ∃ sorted summaries,
      fetch_recent_summaries 1 (File d) = (Ok summaries, File d)
      ∧ sorted ≡ₚ summary_rows d
      ∧ StronglySorted by_start_date_desc_id_desc sorted
      ∧ Forall2
          (λ row s,
             header_of row s ∧ line_items d (s_id row) (ss_products s))
          (take (Z.to_nat 1) sorted) summaries
      ∧ (length summaries ≤ Z.to_nat 1)%nat
      ∧ (summary_rows d = [] → summaries = []).
Proof.
  intros d.
  assert (H1 : db_summaries d = Some (Table (summary_rows d) 2))
    by reflexivity.
  assert (H2 : db_products d = Some (Table (product_rows d) 3))
    by reflexivity.
  assert (H3 : 0 < 1) by reflexivity.
  assert (H4 : 1 ≤ 2 ^ 63 - 1) by (vm_compute; discriminate).
  exact (conj H1 (conj H2 (conj H3 (conj H4
           (fetch_recent_summaries_ordered d _ _ 1 H1 H2 H3 H4))))).
Defined.

(** C2 as stated fails: the limit 2^63 is a positive integer, and with it
    [fetch_recent_summaries] raises [OverflowError] on a storage that
    holds two summaries, for the limit is bound as an SQLite INTEGER. *)
Lemma fetch_recent_summaries_limit_overflow :
  0 < 2 ^ 63
  ∧ length (summary_rows database_AB) = 2%nat
  ∧ fetch_recent_summaries (2 ^ 63) (File database_AB)
    = (Err Overflow, File database_AB).
Proof. by_evaluation. Qed.

Lemma fetch_by_start_date_latest_witness :
  let d := database_AA in
  db_summaries d = Some (Table (summary_rows d) 2)
  ∧ db_products d = Some (Table (product_rows d) 4)
  ∧ (∃ r, r ∈ summary_rows d ∧ s_start_date r = "2024-01-01")
  ∧ ∃ row s,
      fetch_by_start_date "2024-01-01" (File d) = (Ok (Some s), File d)
      ∧ row ∈ summary_rows d
      ∧ s_start_date row = "2024-01-01"
      ∧ (∀ r, r ∈ summary_rows d → s_start_date r = "2024-01-01" →
              s_id r ≤ s_id row)
      ∧ header_of row s
      ∧ line_items d (s_id row) (ss_products s).
Proof.
  intros d.
  assert (H1 : db_summaries d = Some (Table (summary_rows d) 2))
    by reflexivity.
  assert (H2 : db_products d = Some (Table (product_rows d) 4))
    by reflexivity.
  assert (H3 : ∃ r, r ∈ summary_rows d ∧ s_start_date r = "2024-01-01").
  { exists (header_row 1 "2024-01-08T09:00:00" report_A).
    split; [apply list_elem_of_here | reflexivity]. }
  exact (conj H1 (conj H2 (conj H3
           (fetch_by_start_date_latest d _ _ "2024-01-01" H1 H2 H3)))).
Defined.

Lemma fetch_by_start_date_not_found_witness :
  let d := database_A in
  db_summaries d = Some (Table (summary_rows d) 1)
  ∧ (∀ r, r ∈ summary_rows d → s_start_date r ≠ "2024-02-01")
  ∧ fetch_by_start_date "2024-02-01" (File d) = (Ok None, File d).
Proof.
  intros d.
  assert (H1 : db_summaries d = Some (Table (summary_rows d) 1))
    by reflexivity.
  assert (H2 : ∀ r, r ∈ summary_rows d → s_start_date r ≠ "2024-02-01")
    by (apply Forall_forall; by_decision).
  exact (conj H1 (conj H2
           (fetch_by_start_date_not_found d _ "2024-02-01" H1 H2))).
Defined.

Lemma initialize_idempotent_witness :
  let d := database_A in
  db_summaries d = Some (Table (summary_rows d) 1)
  ∧ db_products d = Some (Table (product_rows d) 2)
  ∧ initialize (File d) = (Ok (), File d).
Proof.
  intros d.
  assert (H1 : db_summaries d = Some (Table (summary_rows d) 1))
    by reflexivity.
  assert (H2 : db_products d = Some (Table (product_rows d) 2))
    by reflexivity.
  exact (conj H1 (conj H2 (initialize_idempotent d _ _ H1 H2))).
Defined.

Lemma insert_or_replace_on_collision_witness :
  let d := database_A in
  let tp := Table (product_rows d) 2 in
  let q := product_tuple 1 product_P1_again in
  let old := product_row_of 2 (product_tuple 1 product_P1) in
  referential_integrity d
  ∧ db_products d = Some tp
  ∧ old ∈ tbl_rows tp
  ∧ product_key old = params_key q
  ∧ Z.max (tbl_seq tp) (largest_rowid p_id (tbl_rows tp)) < max_rowid
  ∧ ∃ id d',
      insert_product Replace q true d = Ok (id, d')
      ∧ filter (λ r, product_key r = params_key q) (product_rows d')
        = [product_row_of id q]
      ∧ product_params_of (product_row_of id q) = q
      ∧ filter (λ r, product_key r ≠ params_key q) (product_rows d')
        = filter (λ r, product_key r ≠ params_key q) (product_rows d)
      ∧ summary_rows d' = summary_rows d.
Proof.
  intros d tp q old.
  assert (H1 : referential_integrity d) by by_decision.
  assert (H2 : db_products d = Some tp) by reflexivity.
  assert (H3 : old ∈ tbl_rows tp)
    by apply list_elem_of_further, list_elem_of_here.
  assert (H4 : product_key old = params_key q) by reflexivity.
  assert (H5 : Z.max (tbl_seq tp) (largest_rowid p_id (tbl_rows tp))
               < max_rowid) by reflexivity.
  exact (conj H1 (conj H2 (conj H3 (conj H4 (conj H5
           (insert_or_replace_on_collision d tp q true old
              H1 H2 H3 H4 H5)))))).
Defined.

Lemma delete_summary_cascades_witness :
  let c := (pragma_foreign_keys_on (connect database_AB)).2 in
  let which := λ r, s_id r =? 1 in
  let c' := (execute_dml (delete_summaries which) c).2 in
  foreign_keys c = true
  ∧ execute_dml (delete_summaries which) c = (Ok (), c')
  ∧ (∀ h, h ∈ summary_rows (working c) → which h = true →
          (h ∉ summary_rows (working c'))
          ∧ (∀ p, p ∈ product_rows (working c') →
                  p_summary_id p ≠ s_id h)
          ∧ (is_Some (db_products (working c)) →
             _fetch_products (s_id h) c' = (Ok [], c')))
  ∧ (∀ p, p ∈ product_rows (working c) →
          (∀ h, h ∈ summary_rows (working c) → which h = true →
                p_summary_id p ≠ s_id h) →
          p ∈ product_rows (working c')).
Proof.
  intros c which c'.
  assert (H1 : foreign_keys c = true) by reflexivity.
  assert (H2 : execute_dml (delete_summaries which) c = (Ok (), c'))
    by reflexivity.
  exact (conj H1 (conj H2 (delete_summary_cascades c c' which H1 H2))).
Defined.

Lemma save_summary_inserts_witness :
  let d := database_new in
  let created_at := "2024-01-08T09:00:00" in
  save_summary created_at report_A (File d) = (Ok 1, File database_A)
  ∧ ∃ d' kept new,
      File database_A = File d'
      ∧ summary_rows d'
        = summary_rows d ++ [header_row 1 created_at report_A]
      ∧ (∀ r, r ∈ summary_rows d → s_id r < 1)
      ∧ (∀ ts, db_summaries d = Some ts → tbl_seq ts < 1)
      ∧ product_rows d' = kept ++ new
      ∧ kept ⊆ product_rows d
      ∧ (referential_integrity d → kept = product_rows d)
      ∧ Forall (λ r, p_summary_id r = 1) new
      ∧ p_asin <$> new = asin <$> last_per_key asin (top_products report_A)
      ∧ NoDup (p_asin <$> new)
      ∧ product_params_of <$> new
        = product_tuple 1 <$> last_per_key asin (top_products report_A)
      ∧ (NoDup (asin <$> top_products report_A) →
         product_params_of <$> new
         = product_tuple 1 <$> top_products report_A).
Proof.
  intros d created_at.
  assert (H1 : save_summary created_at report_A (File d)
               = (Ok 1, File database_A)) by reflexivity.
  exact (conj H1 (save_summary_inserts created_at report_A d 1 _ H1)).
Defined.

Lemma save_then_fetch_by_start_date_witness :
  let d := database_new in
  let created_at := "2024-01-08T09:00:00" in
  db_products d = Some empty_table
  ∧ referential_integrity d
  ∧ (∀ r, r ∈ summary_rows d → s_start_date r ≠ "2024-01-01")
  ∧ save_summary created_at report_A (File d) = (Ok 1, File database_A)
  ∧ ∃ products,
      fetch_by_start_date "2024-01-01" (File database_A)
      = (Ok (Some
               {| ss_id := 1; ss_start := "2024-01-01";
                  ss_end := "2024-01-07"; ss_source := "reportA";
                  ss_total_revenue := 1000%Q; ss_total_units := 50;
                  ss_total_sessions := 500; ss_conversion_rate := 0.1%Q;
                  ss_refund_rate := 0.02%Q; ss_created_at := created_at;
                  ss_products := products |}), File database_A)
      ∧ products
        ≡ₚ stored_of_performance
             <$> last_per_key asin (top_products report_A)
      ∧ StronglySorted revenue_desc products
      ∧ (NoDup (asin <$> top_products report_A) →
         products ≡ₚ stored_of_performance <$> top_products report_A).
Proof.
  intros d created_at.
  assert (H1 : db_products d = Some empty_table) by reflexivity.
  assert (H2 : referential_integrity d) by by_decision.
  assert (H3 : ∀ r, r ∈ summary_rows d → s_start_date r ≠ "2024-01-01")
    by (apply Forall_forall; by_decision).
  assert (H4 : save_summary created_at report_A (File d)
               = (Ok 1, File database_A)) by reflexivity.
  exact (conj H1 (conj H2 (conj H3 (conj H4
           (save_then_fetch_by_start_date created_at report_A d _ 1 _
              H1 H2 H3 H4))))).
Defined.

(** C9 as stated fails: [report_twice] has two entries, both for "P1";
    saving it to a new database returns key 1 and leaves one line-item
    under that key, with the values of the second entry. *)
Lemma save_summary_not_one_row_per_entry :
  save_summary "2024-01-08T09:00:00" report_twice (File database_new)
  = (Ok 1, File database_twice)
  ∧ top_products report_twice = [product_P1; product_P1_again]
  ∧ filter (λ r, p_summary_id r = 1) (product_rows database_twice)
    = [product_row_of 2 (product_tuple 1 product_P1_again)]
  ∧ length (filter (λ r, p_summary_id r = 1) (product_rows database_twice))
    ≠ length (top_products report_twice).
Proof. by_evaluation. Qed.

(** C3 as stated fails: after [report_twice] is saved to a new database,
    the record read back by its start date has one line-item, the second
    entry, not the two entries that were written. *)
Lemma save_then_fetch_not_every_entry :
  save_summary "2024-01-08T09:00:00" report_twice (File database_new)
  = (Ok 1, File database_twice)
  ∧ ∃ s,
      fetch_by_start_date (isoformat (start report_twice))
        (File database_twice)
      = (Ok (Some s), File database_twice)
      ∧ ss_products s = [stored_of_performance product_P1_again]
      ∧ ¬ ss_products s
          ≡ₚ stored_of_performance <$> top_products report_twice.
Proof.
  split; [by_evaluation|]. eexists. split; [by vm_compute|].
  split; [done|]. intros Hperm%Permutation_length. by vm_compute in Hperm.
Qed.

End samples.

(** * Further properties of the repository *)

(** ** The read operations in closed form *)

Section closed_forms.

Lemma load_summaries_run rows c tp :
  db_products (working c) = Some tp →
  load_summaries rows c = (Ok (summary_record tp <$> rows), c).
Proof.
  intros Htp. induction rows as [|row rows IH]; [done|].
  cbn [load_summaries]. unfold mbind, M_bind.
  rewrite fetch_products_run. unfold select_products. rewrite Htp.
  by rewrite IH.
Qed.

Lemma fetch_recent_summaries_run limit d ts tp :
  db_summaries d = Some ts →
  db_products d = Some tp →
  fits_int64 limit →
  fetch_recent_summaries limit (File d)
  = (Ok (summary_record tp
           <$> sql_limit limit
                 (merge_sort by_start_date_desc_id_desc (tbl_rows ts))),
     File d).
Proof.
  intros Hts Htp Hfits. unfold fetch_recent_summaries.
  rewrite with_connect_read by apply fetch_recent_body_connection.
  f_equal. unfold mbind at 1, M_bind at 1. rewrite recent_rows_run.
  simpl. rewrite Hts, decide_True by done.
  by rewrite (load_summaries_run _ (connect d) tp).
Qed.

(** A limit that does not fit raises, once the statement is compiled. *)
Lemma fetch_recent_summaries_overflow limit d ts :
  db_summaries d = Some ts →
  ¬ fits_int64 limit →
  fetch_recent_summaries limit (File d) = (Err Overflow, File d).
Proof.
  intros Hts Hfits. unfold fetch_recent_summaries.
  rewrite with_connect_read by apply fetch_recent_body_connection.
  f_equal. unfold mbind at 1, M_bind at 1. rewrite recent_rows_run.
  simpl. by rewrite Hts, decide_False by done.
Qed.

Lemma fetch_by_start_date_run start_date d ts tp :
  db_summaries d = Some ts →
  db_products d = Some tp →
  fetch_by_start_date start_date (File d)
  = (Ok (summary_record tp
           <$> head (merge_sort by_id_desc
                       (filter (λ r, s_start_date r = start_date)
                               (tbl_rows ts)))),
     File d).
Proof.
  intros Hts Htp. unfold fetch_by_start_date.
  rewrite with_connect_read by apply fetch_by_start_date_body_connection.
  f_equal. unfold mbind, M_bind, execute_query, select_by_start_date.
  simpl. rewrite Hts.
  destruct (merge_sort by_id_desc _) as [|row rest]; [done|].
  unfold sql_limit. simpl.
  rewrite fetch_products_run. unfold select_products. simpl.
  by rewrite Htp.
Qed.

(** The record of a header row carries the columns of the row and the
    line-items stored under its key. *)
Lemma summary_record_columns d tp row :
  db_products d = Some tp →
  header_of row (summary_record tp row)
  ∧ line_items d (s_id row) (ss_products (summary_record tp row)).
Proof.
  intros Htp. split; [apply stored_summary_columns|].
  unfold summary_record. simpl.
  eexists. split; [|split; [|apply stored_product_columns]].
  - unfold product_rows. rewrite Htp. apply merge_sort_Permutation.
  - apply in_select_order_sorted, StronglySorted_merge_sort; apply _.
Qed.

(** The first row of a sorted list precedes all rows of the list. *)
Lemma merge_sort_head {A} (R : relation A) `{!RelDecision R}
    `{!Total R} `{!Transitive R} `{!Reflexive R} l x rest :
  merge_sort R l = x :: rest → x ∈ l ∧ ∀ y, y ∈ l → R x y.
Proof.
  intros Hsort.
  pose proof (merge_sort_Permutation R l) as Hperm.
  pose proof (StronglySorted_merge_sort R l) as Hsorted.
  rewrite Hsort in Hperm, Hsorted. split.
  - rewrite <- Hperm. left.
  - intros y Hy. rewrite <- Hperm in Hy.
    apply StronglySorted_cons in Hsorted as [Hall _].
    apply elem_of_cons in Hy as [->|Hy]; [done|].
    rewrite Forall_forall in Hall. by apply Hall.
Qed.

End closed_forms.

(** ** Setting up and calling too early *)

Section setup.

(** X1: [initialize] raises the error of [mkdir], and changes nothing,
    where the parent directory is missing and cannot be created.  From
    every other storage, with no directory yet, no tables or only one of
    them, it returns, leaves both tables in place and keeps every row
    that was stored; calling it again changes nothing. *)
Theorem initialize_from_any_storage (st : storage) :
  match st with
  | Unreachable => initialize st = (Err CannotCreateDirectory, st)
  | _ =>
      ∃ d,
        initialize st = (Ok (), File d)
        ∧ initialized d
        ∧ summary_rows d = summary_rows (database_of st)
        ∧ product_rows d = product_rows (database_of st)
        ∧ initialize (File d) = (Ok (), File d)
  end.
Proof.
  destruct st as [|[[ts|] [tp|]]|]; [..|done];
    (eexists; split; [reflexivity|]);
    by repeat split; try (by eexists).
Qed.

(** X2: where the directory is missing every operation but [initialize]
    raises, and where the [summaries] table is missing it raises "no such
    table"; in both cases the storage is left as it was. *)
Theorem calls_before_initialize_raise (d : database) (created_at : string)
    (summary : DashboardSummary) (limit : Z) (start_date : string) :
  db_summaries d = None →
  save_summary created_at summary (File d)
  = (Err (NoSuchTable "summaries"), File d)
  ∧ fetch_recent_summaries limit (File d)
    = (Err (NoSuchTable "summaries"), File d)
  ∧ fetch_by_start_date start_date (File d)
    = (Err (NoSuchTable "summaries"), File d)
  ∧ save_summary created_at summary NoDirectory
    = (Err CannotOpenDatabase, NoDirectory)
  ∧ fetch_recent_summaries limit NoDirectory
    = (Err CannotOpenDatabase, NoDirectory)
  ∧ fetch_by_start_date start_date NoDirectory
    = (Err CannotOpenDatabase, NoDirectory).
Proof.
  intros Hts. repeat split.
  - unfold save_summary, with_connect, save_summary_block, mbind, M_bind,
      compile, prepare_summaries.
    simpl. by rewrite Hts.
  - unfold fetch_recent_summaries, with_connect.
    unfold mbind at 1, M_bind at 1. rewrite recent_rows_run.
    simpl. by rewrite Hts.
  - unfold fetch_by_start_date, with_connect, mbind, M_bind,
      execute_query, select_by_start_date. simpl. by rewrite Hts.
Qed.

Lemma calls_before_initialize_raise_witness :
  let d := empty_database in
  db_summaries d = None
  ∧ save_summary "2024-01-08T09:00:00" report_A (File d)
    = (Err (NoSuchTable "summaries"), File d)
  ∧ fetch_recent_summaries 10 (File d)
    = (Err (NoSuchTable "summaries"), File d)
  ∧ fetch_by_start_date "2024-01-01" (File d)
    = (Err (NoSuchTable "summaries"), File d)
  ∧ save_summary "2024-01-08T09:00:00" report_A NoDirectory
    = (Err CannotOpenDatabase, NoDirectory)
  ∧ fetch_recent_summaries 10 NoDirectory
    = (Err CannotOpenDatabase, NoDirectory)
  ∧ fetch_by_start_date "2024-01-01" NoDirectory
    = (Err CannotOpenDatabase, NoDirectory).
Proof.
  intros d.
  assert (H1 : db_summaries d = None) by reflexivity.
  exact (conj H1
           (calls_before_initialize_raise d "2024-01-08T09:00:00" report_A
              10 "2024-01-01" H1)).
Defined.

End setup.

(** ** Keys and constraints across calls *)

Section keys.

Lemma largest_rowid_bound {R} (rowid : R → Z) rows b :
  0 ≤ b → (∀ r, r ∈ rows → rowid r ≤ b) → largest_rowid rowid rows ≤ b.
Proof.
  intros Hb. induction rows as [|r rows IH]; intros Hall; simpl; [done|].
  apply Z.max_lub; [apply Hall; left|].
  apply IH. intros r' Hr'. apply Hall. by right.
Qed.

Lemma largest_rowid_nonneg {R} (rowid : R → Z) rows :
  0 ≤ largest_rowid rowid rows.
Proof. induction rows as [|r rows IH]; simpl; lia. Qed.

(** A deletion leaves the sequence of [summaries] as it was. *)
Lemma delete_headers_sequence enforce which d ts d' :
  db_summaries d = Some ts →
  (delete_headers enforce which (File d)).2 = File d' →
  ∃ ts', db_summaries d' = Some ts' ∧ tbl_seq ts' = tbl_seq ts.
Proof.
  intros Hts. unfold delete_headers, with_connect, mbind, M_bind,
    execute_dml, delete_summaries.
  destruct enforce, (db_products d) as [tp|] eqn:Htp; simpl;
    rewrite Hts, ?Htp; simpl; intros [= <-]; by eexists.
Qed.

(** X3: surrogate keys are never given twice.  The key returned by a call
    of [save_summary] is smaller than the key returned by any later call,
    also when headers, that of the first call included, were deleted in
    between. *)
Theorem keys_never_reused (created_at1 created_at2 : string)
    (summary1 summary2 : DashboardSummary) (st st1 st3 : storage)
    (id1 id2 : Z) (enforce : bool) (which : summary_row → bool) :
  save_summary created_at1 summary1 st = (Ok id1, st1) →
  save_summary created_at2 summary2 (delete_headers enforce which st1).2
  = (Ok id2, st3) →
  id1 < id2.
Proof.
  intros Hsave1 Hsave2. destruct st as [|d|]; [done| |done].
  apply save_summary_ok in Hsave1
    as (ts & d1 & new & -> & _ & _ & Hts1 & _).
  destruct (with_connect_file
              (_ ← (if enforce then pragma_foreign_keys_on else mret ());
               execute_dml (delete_summaries which)) d1) as [d2 Hd2].
  fold (delete_headers enforce which) in Hd2.
  destruct (delete_headers_sequence enforce which d1 _ d2 Hts1 Hd2)
    as (ts2 & Hts2 & Hseq).
  rewrite Hd2 in Hsave2.
  apply save_summary_ok in Hsave2
    as (ts2' & d3 & new' & _ & Hts2' & Hid2 & _).
  rewrite Hts2 in Hts2'. injection Hts2' as <-.
  apply next_rowid_new in Hid2 as (Hlt & _). simpl in *. lia.
Qed.

(** The line-item statement run for every parameter row returns when the
    header the rows name is stored, the integers of the rows fit and the
    table has rowids left. *)
Lemma executemany_rows_replace_succeeds qs c ts tp :
  db_summaries (working c) = Some ts →
  db_products (working c) = Some tp →
  (∀ q, q ∈ qs → q_summary_id q ∈ s_id <$> tbl_rows ts) →
  Forall (λ q, Forall fits_int64 (product_integers q)) qs →
  high_water p_id tp + Z.of_nat (length qs) ≤ max_rowid →
  ∃ c',
    executemany_rows product_integers (insert_product Replace) qs c
    = (Ok (), c').
Proof.
  revert c tp.
  induction qs as [|q qs IH]; intros c tp Hts Htp Hparent Hfit Hroom.
  { by eexists. }
  apply Forall_cons in Hfit as [Hq Hfit].
  cbn [executemany_rows]. unfold mbind, M_bind, bind_then.
  rewrite decide_True by done. unfold execute_dml at 1.
  unfold insert_product, next_rowid. rewrite Htp.
  fold (high_water p_id tp). cbn [length] in Hroom.
  rewrite decide_False by lia.
  assert (check_parent (foreign_keys c) (working c) (q_summary_id q)
          = Ok ()) as ->.
  { unfold check_parent. destruct (foreign_keys c); [|done].
    rewrite Hts. rewrite decide_True; [done|]. apply Hparent. left. }
  set (id := high_water p_id tp + 1).
  set (rows' := filter _ (tbl_rows tp) ++ [product_row_of id q]).
  apply (IH _ (Table rows' id)); simpl; [done|done| |done|].
  - intros q' Hq'. apply Hparent. by right.
  - assert (high_water p_id (Table rows' id) = id) as ->; [|lia].
    unfold high_water. simpl. apply Z.max_l.
    pose proof (largest_rowid_nonneg p_id (tbl_rows tp)).
    apply largest_rowid_bound; [unfold id, high_water; lia|].
    intros r [[_ Hr]%list_elem_of_filter|Hr%list_elem_of_singleton]%elem_of_app.
    + pose proof (largest_rowid_ge p_id _ _ Hr).
      unfold id, high_water. lia.
    + subst r. simpl. lia.
Qed.

Lemma executemany_replace_succeeds qs c ts tp :
  db_summaries (working c) = Some ts →
  db_products (working c) = Some tp →
  (∀ q, q ∈ qs → q_summary_id q ∈ s_id <$> tbl_rows ts) →
  Forall (λ q, Forall fits_int64 (product_integers q)) qs →
  high_water p_id tp + Z.of_nat (length qs) ≤ max_rowid →
  ∃ c',
    executemany prepare_products product_integers (insert_product Replace)
      qs c
    = (Ok (), c').
Proof.
  intros Hts Htp Hparent Hfit Hroom.
  unfold executemany, mbind, M_bind, compile, prepare_products,
    prepare_summaries.
  rewrite Htp, Hts.
  assert ((if foreign_keys c then Ok () else Ok ()) = Ok () :> result unit)
    as -> by (by destruct (foreign_keys c)).
  by eapply executemany_rows_replace_succeeds.
Qed.

(** X9: on a storage with both tables, [save_summary] returns whenever
    the integers of the summary fit a signed 64-bit integer (the ones
    SQLite binds; a larger one raises [OverflowError]), [summaries] has a
    rowid left and [products] has one left for every entry; the key it
    returns is one more than the largest key [summaries] ever held.  In
    particular the foreign key of the line-items never fails, for the
    header is written first. *)
Theorem save_summary_succeeds (created_at : string)
    (summary : DashboardSummary) (d : database)
    (ts : table summary_row) (tp : table product_row) :
  db_summaries d = Some ts →
  db_products d = Some tp →
  bindable summary →
  high_water s_id ts < max_rowid →
  high_water p_id tp + Z.of_nat (length (top_products summary))
  ≤ max_rowid →
  ∃ d',
    save_summary created_at summary (File d)
    = (Ok (high_water s_id ts + 1), File d').
Proof.
  intros Hts Htp (Hunits & Hsessions & Hproducts) Hroom Hroom'.
  assert (0 ≤ high_water s_id ts) as Hpos.
  { unfold high_water.
    pose proof (largest_rowid_nonneg s_id (tbl_rows ts)). lia. }
  unfold save_summary, with_connect, save_summary_block, mbind, M_bind,
    compile, prepare_summaries, bind_then.
  simpl. rewrite Hts.
  rewrite decide_True
    by (apply Forall_cons_2; [|apply Forall_cons_2; [|constructor]]; done).
  unfold execute_dml at 1, insert_summary, next_rowid. simpl.
  rewrite Hts. fold (high_water s_id ts). rewrite decide_False by lia.
  set (id := high_water s_id ts + 1).
  match goal with
  | |- context [executemany _ _ ?stmt ?rows ?c] =>
      destruct (executemany_replace_succeeds rows c
                  (Table (tbl_rows ts ++ [header_row id created_at summary])
                         id) tp)
        as [c' Hmany]
  end; simpl; try done.
  - intros q (p & -> & _)%list_elem_of_fmap. simpl.
    rewrite fmap_app. apply elem_of_app. right. simpl. left.
  - apply Forall_fmap. eapply Forall_impl; [exact Hproducts|].
    intros p (Hu & Hs & Hr). unfold product_integers. simpl.
    apply Forall_cons_2; [unfold fits_int64, id, max_rowid in *; lia|].
    apply Forall_cons_2; [done|].
    apply Forall_cons_2; [done|].
    apply Forall_cons_2; [done|constructor].
  - by rewrite length_fmap.
  - fold id in Hmany |- *. unfold header_row in Hmany.
    rewrite Hmany. simpl. by eexists.
Qed.

Lemma save_summary_succeeds_witness :
  let d := database_A in
  let ts := Table (summary_rows d) 1 in
  let tp := Table (product_rows d) 2 in
  db_summaries d = Some ts
  ∧ db_products d = Some tp
  ∧ bindable report_B
  ∧ high_water s_id ts < max_rowid
  ∧ high_water p_id tp + Z.of_nat (length (top_products report_B))
    ≤ max_rowid
  ∧ ∃ d',
      save_summary "2024-01-15T09:00:00" report_B (File d)
      = (Ok (high_water s_id ts + 1), File d').
Proof.
  intros d ts tp.
  assert (H1 : db_summaries d = Some ts) by reflexivity.
  assert (H2 : db_products d = Some tp) by reflexivity.
  assert (H0 : bindable report_B)
    by (apply (bool_decide_unpack _); vm_compute; done).
  assert (H3 : high_water s_id ts < max_rowid) by reflexivity.
  assert (H4 : high_water p_id tp
               + Z.of_nat (length (top_products report_B)) ≤ max_rowid)
    by (vm_compute; discriminate).
  exact (conj H1 (conj H2 (conj H0 (conj H3 (conj H4
           (save_summary_succeeds "2024-01-15T09:00:00" report_B d ts tp
              H1 H2 H0 H3 H4)))))).
Defined.

Lemma keys_never_reused_witness :
  let st := File database_new in
  let st1 := File database_A in
  let which := λ r, s_id r =? 1 in
  let st3 :=
    (save_summary "2024-01-15T09:00:00" report_B
       (delete_headers true which st1).2).2 in
  save_summary "2024-01-08T09:00:00" report_A st = (Ok 1, st1)
  ∧ save_summary "2024-01-15T09:00:00" report_B
      (delete_headers true which st1).2 = (Ok 2, st3)
  ∧ 1 < 2.
Proof.
  intros st st1 which st3.
  assert (H1 : save_summary "2024-01-08T09:00:00" report_A st = (Ok 1, st1))
    by reflexivity.
  assert (H2 : save_summary "2024-01-15T09:00:00" report_B
                 (delete_headers true which st1).2 = (Ok 2, st3))
    by reflexivity.
  exact (conj H1 (conj H2
           (keys_never_reused _ _ _ _ _ _ _ _ _ true which H1 H2))).
Defined.

End keys.

Section constraints_kept.

Lemma product_key_params r : product_key r = params_key (product_params_of r).
Proof. done. Qed.

(** X7: [save_summary] keeps the keys the schema declares: if no two
    header rows share an id and no two line-item rows share a
    (summary_id, asin) pair before the call, the same holds after it,
    whether it returns or raises. *)
Theorem save_summary_keeps_unique_keys (created_at : string)
    (summary : DashboardSummary) (d d' : database) (r : result Z) :
  unique_keys d →
  save_summary created_at summary (File d) = (r, File d') →
  unique_keys d'.
Proof.
  intros [Hids Hkeys] Hsave. destruct r as [id|e].
  2: { apply save_summary_failure in Hsave. by simplify_eq. }
  apply save_summary_ok in Hsave
    as (ts & d'' & new & [= <-] & Hts & Hid & Hts' & _ & Hrows & Hnew).
  pose proof (next_rowid_new _ _ _ Hid) as (_ & _ & Hlt).
  unfold unique_keys, summary_rows in *. rewrite Hts in Hids.
  rewrite Hts', Hrows. simpl. split.
  - rewrite fmap_app. apply NoDup_app. split; [done|].
    split; [|apply NoDup_singleton].
    intros x (h & -> & Hh)%list_elem_of_fmap Hx%list_elem_of_singleton.
    specialize (Hlt h Hh). simpl in Hx. lia.
  - assert (product_key <$> new
            = params_key <$> last_per_key params_key
                (product_tuple id <$> top_products summary)) as Hnewkeys.
    { rewrite last_per_key_product_tuple, <- Hnew, <- list_fmap_compose.
      done. }
    rewrite fmap_app. apply NoDup_app. split; [|split].
    + eapply sublist_NoDup; [exact Hkeys|].
      apply fmap_sublist, sublist_filter.
    + intros k (row & -> & [Hfree _]%list_elem_of_filter)%list_elem_of_fmap.
      rewrite Hnewkeys, last_per_key_keys. done.
    + rewrite Hnewkeys. apply last_per_key_NoDup_keys.
Qed.

(** X8: [save_summary] keeps referential integrity: if every line-item
    belongs to a stored summary before the call, so it does after it,
    whether the call returns or raises. *)
Theorem save_summary_keeps_referential_integrity (created_at : string)
    (summary : DashboardSummary) (d d' : database) (r : result Z) :
  referential_integrity d →
  save_summary created_at summary (File d) = (r, File d') →
  referential_integrity d'.
Proof.
  intros Hint Hsave. destruct r as [id|e].
  2: { apply save_summary_failure in Hsave. by simplify_eq. }
  apply save_summary_ok in Hsave
    as (ts & d'' & new & [= <-] & Hts & Hid & Hts' & _ & Hrows & Hnew).
  intros p. rewrite Hrows. unfold summary_rows at 1. rewrite Hts'. simpl.
  rewrite fmap_app, !elem_of_app.
  intros [[_ Hp]%list_elem_of_filter|Hp].
  - left. apply Hint in Hp. unfold summary_rows in Hp. by rewrite Hts in Hp.
  - right. apply list_elem_of_singleton.
    assert (product_params_of p ∈ product_params_of <$> new) as Hq
      by (by apply list_elem_of_fmap_2).
    rewrite Hnew in Hq. apply list_elem_of_fmap in Hq as (p0 & Hq & _).
    by apply (f_equal q_summary_id) in Hq.
Qed.

End constraints_kept.

(** ** Reading after writing *)

Section reading_after_writing.

#[global] Instance by_id_desc_refl : Reflexive by_id_desc.
Proof. intros a. unfold by_id_desc. lia. Qed.

#[global] Instance by_start_date_desc_id_desc_refl :
  Reflexive by_start_date_desc_id_desc.
Proof. intros a. right. split; [done|lia]. Qed.

(** X4: on a storage with both tables [fetch_recent_summaries] returns
    for every limit that fits a signed 64-bit integer, and raises
    [OverflowError] for any other.  When it returns, it returns records of
    stored header rows, each with the columns of its row and the
    line-items stored under its key: all of them when the limit is
    negative, none when it is zero, and otherwise as many as the limit
    allows. *)
Theorem fetch_recent_summaries_count (d : database)
    (ts : table summary_row) (tp : table product_row) (limit : Z) :
  db_summaries d = Some ts →
  db_products d = Some tp →
  (fits_int64 limit →
   ∃ summaries,
     fetch_recent_summaries limit (File d) = (Ok summaries, File d)
     ∧ length summaries
       = (if decide (limit < 0) then length (tbl_rows ts)
          else Nat.min (Z.to_nat limit) (length (tbl_rows ts)))
     ∧ (limit = 0 → summaries = [])
     ∧ ∀ s, s ∈ summaries →
            ∃ row, row ∈ tbl_rows ts
                   ∧ header_of row s
                   ∧ line_items d (s_id row) (ss_products s))
  ∧ (¬ fits_int64 limit →
     fetch_recent_summaries limit (File d) = (Err Overflow, File d)).
Proof.
  intros Hts Htp.
  split; [|by apply (fetch_recent_summaries_overflow _ _ ts)].
  intros Hfits.
  eexists. split; [by apply fetch_recent_summaries_run|].
  set (sorted := merge_sort by_start_date_desc_id_desc (tbl_rows ts)).
  assert (sorted ≡ₚ tbl_rows ts) as Hperm by apply merge_sort_Permutation.
  split; [|split].
  - rewrite length_fmap. unfold sql_limit. case_decide.
    + by rewrite Hperm.
    + by rewrite length_take, Hperm.
  - intros ->. done.
  - intros s (row & -> & Hrow)%list_elem_of_fmap. exists row.
    split; [|by apply summary_record_columns].
    rewrite <- Hperm. unfold sql_limit in Hrow.
    case_decide; [done|]. by eapply subseteq_take.
Qed.

Lemma fetch_recent_summaries_count_witness :
  let d := database_AB in
  let ts := Table (summary_rows d) 2 in
  let tp := Table (product_rows d) 3 in
  db_summaries d = Some ts
  ∧ db_products d = Some tp
  ∧ (fits_int64 (-1) →
     ∃ summaries,
       fetch_recent_summaries (-1) (File d) = (Ok summaries, File d)
       ∧ length summaries
         = (if decide (-1 < 0) then length (tbl_rows ts)
            else Nat.min (Z.to_nat (-1)) (length (tbl_rows ts)))
       ∧ (-1 = 0 → summaries = [])
       ∧ ∀ s, s ∈ summaries →
              ∃ row, row ∈ tbl_rows ts
                     ∧ header_of row s
                     ∧ line_items d (s_id row) (ss_products s))
  ∧ (¬ fits_int64 (-1) →
     fetch_recent_summaries (-1) (File d) = (Err Overflow, File d)).
Proof.
  intros d ts tp.
  assert (H1 : db_summaries d = Some ts) by reflexivity.
  assert (H2 : db_products d = Some tp) by reflexivity.
  exact (conj H1 (conj H2 (fetch_recent_summaries_count d ts tp (-1) H1 H2))).
Defined.

(** The header row a returning call wrote is the one with the highest id
    among the rows of its start date, and the first row of all when no
    stored start date is later than its own. *)
Lemma saved_header_first created_at summary d id d' ts' :
  save_summary created_at summary (File d) = (Ok id, File d') →
  db_summaries d' = Some ts' →
  let header := header_row id created_at summary in
  head (merge_sort by_id_desc
          (filter (λ r, s_start_date r = isoformat (start summary))
                  (tbl_rows ts')))
  = Some header
  ∧ ((∀ r, r ∈ summary_rows d →
           String.le (s_start_date r) (isoformat (start summary))) →
     sql_limit 1 (merge_sort by_start_date_desc_id_desc (tbl_rows ts'))
     = [header]).
Proof.
  intros Hsave Hts' header.
  apply save_summary_ok in Hsave
    as (ts & d'' & new & [= <-] & Hts & Hid & Hts'' & _).
  rewrite Hts' in Hts''. injection Hts'' as ->. cbn [tbl_rows].
  fold header.
  pose proof (next_rowid_new _ _ _ Hid) as (_ & _ & Hlt).
  set (rows := tbl_rows ts ++ [header]).
  assert (header ∈ rows) as Hheader
    by (apply elem_of_app; right; by apply list_elem_of_singleton).
  assert (∀ x, x ∈ rows → id ≤ s_id x → x = header) as Hnew.
  { intros x [Hx|Hx%list_elem_of_singleton]%elem_of_app; [|done].
    specialize (Hlt x Hx). lia. }
  split.
  - set (matching :=
           filter (λ r, s_start_date r = isoformat (start summary)) rows).
    assert (header ∈ matching) as Hin by (by apply list_elem_of_filter).
    pose proof (merge_sort_Permutation by_id_desc matching) as Hperm.
    destruct (merge_sort by_id_desc matching) as [|x rest] eqn:Hsort.
    + rewrite <- Hperm in Hin. by apply not_elem_of_nil in Hin.
    + apply merge_sort_head in Hsort as [Hx Hmax]; [|apply _..].
      apply list_elem_of_filter in Hx as [_ Hx]. simpl. f_equal.
      apply Hnew; [done|]. by apply (Hmax header).
  - intros Hlatest.
    pose proof (merge_sort_Permutation by_start_date_desc_id_desc rows)
      as Hperm.
    destruct (merge_sort by_start_date_desc_id_desc rows) as [|x rest]
      eqn:Hsort.
    + rewrite <- Hperm in Hheader. by apply not_elem_of_nil in Hheader.
    + apply merge_sort_head in Hsort as [Hx Hfirst]; [|apply _..].
      unfold sql_limit. simpl. f_equal.
      destruct (Hfirst header Hheader) as [[_ Hstrict]|[_ Hle]].
      * apply elem_of_app in Hx as [Hx|Hx%list_elem_of_singleton];
          [|done].
        destruct Hstrict. apply Hlatest.
        unfold summary_rows. by rewrite Hts.
      * by apply Hnew.
Qed.

(** X5: right after [save_summary] has written a summary whose start date
    no stored start date exceeds, [fetch_recent_summaries 1] returns just
    that summary: the record under the returned key, the same record that
    [fetch_by_start_date] returns for its start date. *)
Theorem save_then_fetch_recent (created_at : string)
    (summary : DashboardSummary) (d : database) (tp : table product_row)
    (id : Z) (st' : storage) :
  db_products d = Some tp →
  (∀ r, r ∈ summary_rows d →
        String.le (s_start_date r) (isoformat (start summary))) →
  save_summary created_at summary (File d) = (Ok id, st') →
  ∃ s,
    fetch_recent_summaries 1 st' = (Ok [s], st')
    ∧ fetch_by_start_date (isoformat (start summary)) st'
      = (Ok (Some s), st')
    ∧ ss_id s = id
    ∧ ss_start s = isoformat (start summary)
    ∧ ss_created_at s = created_at.
Proof.
  intros Htp Hlatest Hsave.
  pose proof Hsave as Hsave'.
  apply save_summary_ok in Hsave'
    as (ts & d' & new & -> & Hts & Hid & Hts' & Hp & _).
  destruct Hp as [tp' Htp']; [by eexists|].
  destruct (saved_header_first _ _ _ _ _ _ Hsave Hts') as [Hbydate Hrecent].
  exists (summary_record tp' (header_row id created_at summary)).
  rewrite (fetch_recent_summaries_run 1 d' _ tp' Hts' Htp')
    by (unfold fits_int64; lia).
  rewrite (fetch_by_start_date_run _ d' _ tp' Hts' Htp').
  rewrite Hbydate, (Hrecent Hlatest). done.
Qed.

Lemma save_then_fetch_recent_witness :
  let d := database_A in
  let tp := Table (product_rows d) 2 in
  db_products d = Some tp
  ∧ (∀ r, r ∈ summary_rows d →
          String.le (s_start_date r) (isoformat (start report_B)))
  ∧ save_summary "2024-01-15T09:00:00" report_B (File d)
    = (Ok 2, File database_AB)
  ∧ ∃ s,
      fetch_recent_summaries 1 (File database_AB)
      = (Ok [s], File database_AB)
      ∧ fetch_by_start_date (isoformat (start report_B))
          (File database_AB)
        = (Ok (Some s), File database_AB)
      ∧ ss_id s = 2
      ∧ ss_start s = isoformat (start report_B)
      ∧ ss_created_at s = "2024-01-15T09:00:00".
Proof.
  intros d tp.
  assert (H1 : db_products d = Some tp) by reflexivity.
  assert (H2 : ∀ r, r ∈ summary_rows d →
                    String.le (s_start_date r) (isoformat (start report_B)))
    by (apply Forall_forall, (bool_decide_unpack _); vm_compute; done).
  assert (H3 : save_summary "2024-01-15T09:00:00" report_B (File d)
               = (Ok 2, File database_AB)) by reflexivity.
  exact (conj H1 (conj H2 (conj H3
           (save_then_fetch_recent "2024-01-15T09:00:00" report_B d tp 2 _
              H1 H2 H3)))).
Defined.

End reading_after_writing.

Section other_summaries.

(** The line-items of the other keys are those stored before the call. *)
Lemma save_summary_other_line_items created_at summary d id d' key :
  save_summary created_at summary (File d) = (Ok id, File d') →
  key ≠ id →
  filter (λ r, p_summary_id r = key) (product_rows d')
  = filter (λ r, p_summary_id r = key) (product_rows d).
Proof.
  intros Hsave Hkey.
  apply save_summary_ok in Hsave
    as (ts & d'' & new & [= <-] & _ & _ & _ & _ & Hrows & Hnew).
  rewrite Hrows, filter_app, list_filter_filter.
  rewrite (filter_Forall_nil _ new), app_nil_r.
  - apply list_filter_iff. intros r. split; [by intros [? _]|].
    intros Hr. split; [done|].
    rewrite <- list_fmap_compose.
    intros (p & Hp & _)%list_elem_of_fmap. injection Hp as Hsid _. congruence.
  - apply Forall_forall. intros r Hr.
    assert (product_params_of r ∈ product_params_of <$> new) as Hq
      by (by apply list_elem_of_fmap_2).
    rewrite Hnew in Hq. apply list_elem_of_fmap in Hq as (p0 & Hq & _).
    apply (f_equal q_summary_id) in Hq. simpl in Hq. congruence.
Qed.

(** X6: [save_summary] leaves the other summaries as they read: after a
    call that returns, [fetch_by_start_date] for any start date other
    than that of the summary written returns what it returned before. *)
Theorem save_summary_keeps_other_start_dates (created_at : string)
    (summary : DashboardSummary) (d : database) (tp : table product_row)
    (id : Z) (st' : storage) (start_date : string) :
  db_products d = Some tp →
  start_date ≠ isoformat (start summary) →
  save_summary created_at summary (File d) = (Ok id, st') →
  (fetch_by_start_date start_date st').1
  = (fetch_by_start_date start_date (File d)).1.
Proof.
  intros Htp Hother Hsave.
  pose proof Hsave as Hsave'.
  apply save_summary_ok in Hsave'
    as (ts & d' & new & -> & Hts & Hid & Hts' & Hp & _).
  destruct Hp as [tp' Htp']; [by eexists|].
  rewrite (fetch_by_start_date_run _ d' _ tp' Hts' Htp').
  rewrite (fetch_by_start_date_run _ d ts tp Hts Htp).
  cbn [fst tbl_rows]. rewrite filter_app.
  rewrite (filter_Forall_nil _ [_]), app_nil_r
    by (apply Forall_singleton; simpl; congruence).
  set (matching := filter (λ r, s_start_date r = start_date) (tbl_rows ts)).
  destruct (merge_sort by_id_desc matching) as [|row rest] eqn:Hsort;
    [done|].
  apply merge_sort_head in Hsort as [Hrow _]; [|apply _..].
  apply list_elem_of_filter in Hrow as [_ Hrow].
  apply next_rowid_new in Hid as (_ & _ & Hlt). specialize (Hlt row Hrow).
  simpl. do 2 f_equal. unfold summary_record. do 3 f_equal.
  pose proof (save_summary_other_line_items _ _ _ _ _ (s_id row) Hsave
                ltac:(lia)) as Hitems.
  unfold product_rows in Hitems. by rewrite Htp, Htp' in Hitems.
Qed.

Lemma save_summary_keeps_other_start_dates_witness :
  let d := database_A in
  let tp := Table (product_rows d) 2 in
  db_products d = Some tp
  ∧ "2024-01-01" ≠ isoformat (start report_B)
  ∧ save_summary "2024-01-15T09:00:00" report_B (File d)
    = (Ok 2, File database_AB)
  ∧ (fetch_by_start_date "2024-01-01" (File database_AB)).1
    = (fetch_by_start_date "2024-01-01" (File d)).1.
Proof.
  intros d tp.
  assert (H1 : db_products d = Some tp) by reflexivity.
  assert (H2 : "2024-01-01" ≠ isoformat (start report_B))
    by (apply (bool_decide_unpack _); vm_compute; done).
  assert (H3 : save_summary "2024-01-15T09:00:00" report_B (File d)
               = (Ok 2, File database_AB)) by reflexivity.
  exact (conj H1 (conj H2 (conj H3
           (save_summary_keeps_other_start_dates "2024-01-15T09:00:00"
              report_B d tp 2 _ "2024-01-01" H1 H2 H3)))).
Defined.

(** X11: the two read operations agree: a record that
    [fetch_by_start_date] returns is among the records that
    [fetch_recent_summaries] returns when given no limit, that is a
    negative one, which SQLite binds when it is not below -2^63. *)
Theorem fetch_by_start_date_among_recent (d : database)
    (ts : table summary_row) (tp : table product_row)
    (start_date : string) (limit : Z) (s : StoredSummary) :
  db_summaries d = Some ts →
  db_products d = Some tp →
  - 2 ^ 63 ≤ limit →
  limit < 0 →
  (fetch_by_start_date start_date (File d)).1 = Ok (Some s) →
  ∃ summaries,
    fetch_recent_summaries limit (File d) = (Ok summaries, File d)
    ∧ s ∈ summaries.
Proof.
  intros Hts Htp Hmin Hlimit.
  rewrite (fetch_by_start_date_run _ d ts tp Hts Htp).
  rewrite (fetch_recent_summaries_run _ d ts tp Hts Htp)
    by (unfold fits_int64; lia).
  cbn [fst]. intros [= Hs]. eexists. split; [done|].
  destruct (merge_sort by_id_desc _) as [|row rest] eqn:Hsort; [done|].
  injection Hs as <-.
  apply merge_sort_head in Hsort as [Hrow _]; [|apply _..].
  apply list_elem_of_filter in Hrow as [_ Hrow].
  apply list_elem_of_fmap_2. unfold sql_limit. rewrite decide_True by done.
  by rewrite merge_sort_Permutation.
Qed.

Lemma fetch_by_start_date_among_recent_witness :
  let d := database_AB in
  let ts := Table (summary_rows d) 2 in
  let tp := Table (product_rows d) 3 in
  let s := summary_record tp (header_row 1 "2024-01-08T09:00:00" report_A) in
  db_summaries d = Some ts
  ∧ db_products d = Some tp
  ∧ - 2 ^ 63 ≤ -1
  ∧ -1 < 0
  ∧ (fetch_by_start_date "2024-01-01" (File d)).1 = Ok (Some s)
  ∧ ∃ summaries,
      fetch_recent_summaries (-1) (File d) = (Ok summaries, File d)
      ∧ s ∈ summaries.
Proof.
  intros d ts tp s.
  assert (H1 : db_summaries d = Some ts) by reflexivity.
  assert (H2 : db_products d = Some tp) by reflexivity.
  assert (H0 : - 2 ^ 63 ≤ -1) by (vm_compute; discriminate).
  assert (H3 : -1 < 0) by reflexivity.
  assert (H4 : (fetch_by_start_date "2024-01-01" (File d)).1 = Ok (Some s))
    by (vm_compute; reflexivity).
  exact (conj H1 (conj H2 (conj H0 (conj H3 (conj H4
           (fetch_by_start_date_among_recent d ts tp "2024-01-01" (-1) s
              H1 H2 H0 H3 H4)))))).
Defined.

(** X12: a summary without product entries is stored as its header
    alone: the call writes and removes no line-item, and the summary
    reads back with an empty list of line-items. *)
Theorem save_summary_without_products (created_at : string)
    (summary : DashboardSummary) (d d' : database)
    (tp : table product_row) (id : Z) :
  top_products summary = [] →
  db_products d = Some tp →
  referential_integrity d →
  save_summary created_at summary (File d) = (Ok id, File d') →
  product_rows d' = product_rows d
  ∧ ∃ s,
      fetch_by_start_date (isoformat (start summary)) (File d')
      = (Ok (Some s), File d')
      ∧ ss_id s = id
      ∧ ss_products s = [].
Proof.
  intros Hempty Htp Hint Hsave. split.
  - apply save_summary_ok in Hsave
      as (ts & d'' & new & [= <-] & _ & _ & _ & _ & Hrows & Hnew).
    rewrite Hempty in Hrows, Hnew. simpl in *.
    apply fmap_nil_inv in Hnew as ->.
    rewrite app_nil_r in Hrows. rewrite Hrows.
    apply filter_Forall_id, Forall_forall. intros r _.
    apply not_elem_of_nil.
  - destruct (save_then_fetch _ _ _ _ _ _ Htp Hint Hsave)
      as (products & Hfetch & Hperm & _).
    rewrite Hempty in Hperm. apply Permutation_nil_r in Hperm as ->.
    by eexists.
Qed.

End other_summaries.

Section calendar_order.

(** X10: [fetch_recent_summaries] orders the summaries by the calendar:
    of two header rows written by [save_summary] for valid dates, the
    query's order puts first the one whose window starts later, and among
    equal start dates the one with the greater key. *)
Theorem recent_order_is_calendar_order (id1 id2 : Z)
    (created_at1 created_at2 : string) (summary1 summary2 : DashboardSummary) :
  valid_date (start summary1) →
  valid_date (start summary2) →
  by_start_date_desc_id_desc
    (header_row id1 created_at1 summary1)
    (header_row id2 created_at2 summary2)
  ↔ date_compare (start summary1) (start summary2) = Gt
    ∨ (start summary1 = start summary2 ∧ id2 ≤ id1).
Proof.
  intros Hv1 Hv2. unfold by_start_date_desc_id_desc, strict. simpl.
  rewrite !isoformat_le by done. split.
  - intros [[_ Hgt]|[Heq Hle]].
    + left. by destruct (date_compare (start summary1) (start summary2));
        [destruct Hgt..|].
    + right. split; [by apply isoformat_inj|done].
  - intros [Hgt|[-> Hle]]; [left|by right].
    split; [|by rewrite Hgt; intros Hne; apply Hne].
    destruct (total String.le (isoformat (start summary1))
                (isoformat (start summary2))) as [Hle|Hle];
      rewrite isoformat_le in Hle by done; [by rewrite Hgt in Hle|done].
Qed.

Lemma recent_order_is_calendar_order_witness :
  valid_date (start report_B)
  ∧ valid_date (start report_A)
  ∧ (by_start_date_desc_id_desc
       (header_row 2 "2024-01-15T09:00:00" report_B)
       (header_row 1 "2024-01-08T09:00:00" report_A)
     ↔ date_compare (start report_B) (start report_A) = Gt
       ∨ (start report_B = start report_A ∧ 1 ≤ 2)).
Proof.
  assert (H1 : valid_date (start report_B))
    by (unfold valid_date; simpl; lia).
  assert (H2 : valid_date (start report_A))
    by (unfold valid_date; simpl; lia).
  exact (conj H1 (conj H2
           (recent_order_is_calendar_order 2 1 "2024-01-15T09:00:00"
              "2024-01-08T09:00:00" report_B report_A H1 H2))).
Defined.

End calendar_order.

(** ** Calls that raise *)

Section raising.

(** X13: [save_summary] raises [OverflowError], and leaves the storage as
    it was, when the total of units or the total of sessions does not
    fit a signed 64-bit integer: the header is not written. *)
Theorem save_summary_integer_overflow (created_at : string)
    (summary : DashboardSummary) (d : database) (ts : table summary_row) :
  db_summaries d = Some ts →
  ¬ (fits_int64 (total_units (totals summary))
     ∧ fits_int64 (total_sessions (totals summary))) →
  save_summary created_at summary (File d) = (Err Overflow, File d).
Proof.
  intros Hts Hfits.
  unfold save_summary, with_connect, save_summary_block, mbind, M_bind,
    compile, prepare_summaries, bind_then.
  simpl. rewrite Hts. rewrite decide_False; [done|].
  intros [Hunits [Hsessions _]%Forall_cons]%Forall_cons. by destruct Hfits.
Qed.

Lemma save_summary_integer_overflow_witness :
  let d := database_A in
  let ts := Table (summary_rows d) 1 in
  db_summaries d = Some ts
  ∧ ¬ (fits_int64 (total_units (totals report_too_large))
       ∧ fits_int64 (total_sessions (totals report_too_large)))
  ∧ save_summary "2024-01-22T09:00:00" report_too_large (File d)
    = (Err Overflow, File d).
Proof.
  intros d ts.
  assert (H1 : db_summaries d = Some ts) by reflexivity.
  assert (H2 : ¬ (fits_int64 (total_units (totals report_too_large))
                  ∧ fits_int64 (total_sessions (totals report_too_large))))
    by (apply (bool_decide_unpack _); vm_compute; done).
  exact (conj H1 (conj H2
           (save_summary_integer_overflow "2024-01-22T09:00:00"
              report_too_large d ts H1 H2))).
Defined.

(** X14: where the [products] table is missing, [save_summary] raises
    "no such table: products" and leaves the storage as it was, the header
    it had written included; this holds also for a summary that lists no
    product, for [executemany] compiles its statement before it looks at
    the rows. *)
Theorem save_summary_needs_products_table (created_at : string)
    (summary : DashboardSummary) (d : database) (ts : table summary_row) :
  db_summaries d = Some ts →
  db_products d = None →
  fits_int64 (total_units (totals summary)) →
  fits_int64 (total_sessions (totals summary)) →
  high_water s_id ts < max_rowid →
  save_summary created_at summary (File d)
  = (Err (NoSuchTable "products"), File d).
Proof.
  intros Hts Htp Hunits Hsessions Hroom.
  unfold save_summary, with_connect, save_summary_block, mbind, M_bind,
    compile, prepare_summaries, bind_then.
  simpl. rewrite Hts.
  rewrite decide_True
    by (apply Forall_cons_2; [|apply Forall_cons_2; [|constructor]]; done).
  unfold execute_dml at 1, insert_summary, next_rowid. simpl.
  rewrite Hts. fold (high_water s_id ts). rewrite decide_False by lia.
  unfold executemany, mbind, M_bind, compile, prepare_products. simpl.
  by rewrite Htp.
Qed.

Lemma save_summary_needs_products_table_witness :
  let d := database_without_products in
  let ts : table summary_row := empty_table in
  db_summaries d = Some ts
  ∧ db_products d = None
  ∧ fits_int64 (total_units (totals report_C))
  ∧ fits_int64 (total_sessions (totals report_C))
  ∧ high_water s_id ts < max_rowid
  ∧ save_summary "2024-01-22T09:00:00" report_C (File d)
    = (Err (NoSuchTable "products"), File d).
Proof.
  intros d ts.
  assert (H1 : db_summaries d = Some ts) by reflexivity.
  assert (H2 : db_products d = None) by reflexivity.
  assert (H3 : fits_int64 (total_units (totals report_C)))
    by (apply (bool_decide_unpack _); vm_compute; done).
  assert (H4 : fits_int64 (total_sessions (totals report_C)))
    by (apply (bool_decide_unpack _); vm_compute; done).
  assert (H5 : high_water s_id ts < max_rowid) by reflexivity.
  exact (conj H1 (conj H2 (conj H3 (conj H4 (conj H5
           (save_summary_needs_products_table "2024-01-22T09:00:00"
              report_C d ts H1 H2 H3 H4 H5)))))).
Defined.

End raising.

Section further_samples.

Local Ltac by_decision := apply (bool_decide_unpack _); vm_compute; done.

Lemma save_summary_keeps_unique_keys_witness :
  unique_keys database_A
  ∧ save_summary "2024-01-15T09:00:00" report_B (File database_A)
    = (Ok 2, File database_AB)
  ∧ unique_keys database_AB.
Proof.
  assert (H1 : unique_keys database_A) by (split; by_decision).
  assert (H2 : save_summary "2024-01-15T09:00:00" report_B (File database_A)
               = (Ok 2, File database_AB)) by reflexivity.
  exact (conj H1 (conj H2
           (save_summary_keeps_unique_keys _ _ _ _ _ H1 H2))).
Defined.

Lemma save_summary_keeps_referential_integrity_witness :
  referential_integrity database_A
  ∧ save_summary "2024-01-15T09:00:00" report_B (File database_A)
    = (Ok 2, File database_AB)
  ∧ referential_integrity database_AB.
Proof.
  assert (H1 : referential_integrity database_A) by by_decision.
  assert (H2 : save_summary "2024-01-15T09:00:00" report_B (File database_A)
               = (Ok 2, File database_AB)) by reflexivity.
  exact (conj H1 (conj H2
           (save_summary_keeps_referential_integrity _ _ _ _ _ H1 H2))).
Defined.

Lemma save_summary_without_products_witness :
  let d := database_A in
  let tp := Table (product_rows d) 2 in
  top_products report_C = []
  ∧ db_products d = Some tp
  ∧ referential_integrity d
  ∧ save_summary "2024-01-22T09:00:00" report_C (File d)
    = (Ok 2, File database_AC)
  ∧ product_rows database_AC = product_rows d
  ∧ ∃ s,
      fetch_by_start_date (isoformat (start report_C)) (File database_AC)
      = (Ok (Some s), File database_AC)
      ∧ ss_id s = 2
      ∧ ss_products s = [].
Proof.
  intros d tp.
  assert (H1 : top_products report_C = []) by reflexivity.
  assert (H2 : db_products d = Some tp) by reflexivity.
  assert (H3 : referential_integrity d) by by_decision.
  assert (H4 : save_summary "2024-01-22T09:00:00" report_C (File d)
               = (Ok 2, File database_AC)) by reflexivity.
  exact (conj H1 (conj H2 (conj H3 (conj H4
           (save_summary_without_products "2024-01-22T09:00:00" report_C
              d database_AC tp 2 H1 H2 H3 H4))))).
Defined.

End further_samples.
